(** * The producer daemon of package [stream]

    A shallow embedding of the batching daemon (type [ProducerDaemon] and its
    methods) together with the parts of package [mon] it talks to, followed by
    the properties of its buffering, flushing and worker code.

    Conventions.
    - Go's [int] and [time.Duration] are [Z]; [len] is [Z.of_nat (length _)].
    - A slice is a [list]; [s[:n]] and [s[n:]] are [take] and [drop] guarded
      by the run-time bounds check, a failed check being a panic.
    - A method with a pointer receiver takes the daemon and returns the
      daemon it leaves behind; a run-time panic is the outcome [Panics].
    - The daemon's mutex serialises [Write], a timer tick and [close]; each
      is one atomic step here.
    - Collaborators behind interfaces (logger, metric writer, sink) are
      kept as the record of the calls made to them. *)

From stdpp Require Import gmap strings list sorting.
From Stdlib Require Import ZArith Lia.

Local Open Scope Z_scope.

(** ** Go runtime: errors, results, panics, slices *)

(** An [error] value: a leaf, or [fmt.Errorf("<msg>: %w", cause)]. *)
Inductive error : Type :=
| ErrLeaf (msg : string)
| ErrWrap (msg : string) (cause : error).

(** A Go result pair [(T, error)] with exactly one side set. *)
Inductive result (A : Type) : Type :=
| Ok (a : A)
| Err (e : error).
Arguments Ok {A} a.
Arguments Err {A} e.

(** What a call does: it returns, or the goroutine panics. *)
Inductive outcome (A : Type) : Type :=
| Returns (a : A)
| Panics (why : string).
Arguments Returns {A} a.
Arguments Panics {A} why.

(** Sequencing of calls, with stdpp's [x ← o; k] notation. *)
#[global] Instance outcome_bind : MBind outcome := fun A B k o =>
  match o with
  | Returns a => k a
  | Panics why => Panics why
  end.

#[global] Instance outcome_ret : MRet outcome := fun A a => Returns a.

Definition len {A : Type} (l : list A) : Z := Z.of_nat (length l).

(** [s[:n], s[n:]] evaluated together, as the tuple assignments of the
    daemon do. The bound of [s[:n]] is the capacity in Go; the daemon only
    slices at [n <= len s], so the length is used. *)
Definition split_at {A : Type} (l : list A) (n : Z) : outcome (list A * list A) :=
  if (0 <=? n) && (n <=? len l)
  then Returns (take (Z.to_nat n) l, drop (Z.to_nat n) l)
  else Panics "slice bounds out of range".

(** ** Messages *)

(** A value of an attribute map ([interface{}]). *)
Inductive AttrValue : Type :=
| AttrBool (b : bool)
| AttrString (s : string)
| AttrInt (z : Z).

Record Message : Type := mkMessage {
  Attributes : gmap string AttrValue;
  Body : string
}.

(** [WritableMessage] is an interface; the daemon only moves its values. *)
Abbreviation WritableMessage := Message.

Definition AttributeAggregate : string := "goso.aggregate".
Definition metricNameMessageCount : string := "MessageCount".
Definition metricNameBatchSize : string := "BatchSize".
Definition metricNameAggregateSize : string := "AggregateSize".
Definition metricNameIdleDuration : string := "IdleDuration".

(** [AggregateMarshaller]: a function of a body and any number of attribute
    maps to a message pointer and an error. The daemon passes the messages
    to fold as the body. *)
Definition AggregateMarshaller : Type :=
  list Message -> list (gmap string AttrValue) -> result Message.

(** ** Package mon: log levels and metric data *)

Module mon.

Definition Trace : string := "trace".
Definition Debug : string := "debug".
Definition Info : string := "info".
Definition Warn : string := "warn".
Definition Error : string := "error".

Definition levels : gmap string Z :=
  <[Trace := 0]> (<[Debug := 1]> (<[Info := 2]> (<[Warn := 3]> (<[Error := 4]> ∅)))).

(** [levels[level]]: a missing key reads as the zero value. *)
Definition levelPriority (level : string) : Z := default 0 (levels !! level).

(** One call on the [Logger] interface: [Warn(msg, args...)] or
    [Error(err, msg, args...)], with the message already formatted. *)
Record LogEntry : Type := mkLogEntry {
  level : string;
  message : string;
  cause : option error
}.

(** The logger as the daemon sees it: the calls made so far, oldest first. *)
Definition Logger : Type := list LogEntry.

Definition LoggerWarn (l : Logger) (msg : string) : Logger :=
  l ++ [mkLogEntry Warn msg None].

Definition LoggerError (l : Logger) (e : error) (msg : string) : Logger :=
  l ++ [mkLogEntry Error msg (Some e)].

Definition PriorityLow : Z := 1.
Definition PriorityHigh : Z := 2.
Definition UnitCount : string := "Count".
Definition UnitCountAverage : string := "UnitCountAverage".
Definition UnitMillisecondsAverage : string := "UnitMillisecondsAverage".

(** [MetricDatum]; [Value] is a [float64] in the source and always the
    conversion of an integer in the daemon, which is what is kept. An unset
    field holds Go's zero value. *)
Record MetricDatum : Type := mkMetricDatum {
  Priority : Z;
  MetricName : string;
  Dimensions : gmap string string;
  Value : Z;
  Unit : string
}.

(** A [MetricWriter]: its default data and what [WriteOne] was given. *)
Record MetricWriter : Type := mkMetricWriter {
  defaults : list MetricDatum;
  written : list MetricDatum
}.

Definition NewMetricDaemonWriter (defaultMetrics : list MetricDatum) : MetricWriter :=
  mkMetricWriter defaultMetrics [].

Definition WriteOne (w : MetricWriter) (data : MetricDatum) : MetricWriter :=
  mkMetricWriter (defaults w) (written w ++ [data]).

(** [MetricDatum.IsValid]: nil, or the first of three complaints. *)
Definition IsValid (d : MetricDatum) : option error :=
  if (MetricName d =? "")%string then Some (ErrLeaf "missing metric name")
  else if Priority d =? 0
  then Some (ErrLeaf ("metric " +:+ MetricName d +:+ " has no priority"))
  else if (Unit d =? "")%string
  then Some (ErrLeaf ("metric " +:+ MetricName d +:+ " has no unit"))
  else None.

(** [fmt.Sprintf("%s:%s", k, v)] for one dimension. *)
Definition flatDimension (kv : string * string) : string :=
  kv.1 +:+ ":" +:+ kv.2.

(** [sort.Strings]: increasing, byte by byte. *)
Definition sortStrings (l : list string) : list string :=
  merge_sort (fun a b => Is_true (String.leb a b)) l.

(** [MetricDatum.DimensionKey] for one order in which [range] may visit the
    dimensions; Go leaves that order open. *)
Definition DimensionKeyOver (order : list (string * string)) : string :=
  String.concat "-" (sortStrings (map flatDimension order)).

Definition DimensionKey (d : MetricDatum) : string :=
  DimensionKeyOver (map_to_list (Dimensions d)).

(** [MetricDatum.Id]. *)
Definition Id (d : MetricDatum) : string :=
  MetricName d +:+ ":" +:+ DimensionKey d.

End mon.

(** ** Package time *)

Module time.

(** [time.Duration]: nanoseconds. *)
Definition Millisecond : Z := 1000000.
Definition Second : Z := 1000 * Millisecond.

(** [Duration.Milliseconds]: integer division, truncated towards zero. *)
Definition Milliseconds (d : Z) : Z := d ÷ Millisecond.

End time.

(** ** Package clock *)

Module clock.

(** Modelled from the spec: the ticker of package [clock], whose code is not
    among the sources. The spec has "a repeating timer with period =
    configured interval" that exposes tick, reset and stop. Kept here: the
    period, how often it was reset and whether it was stopped. *)
Record Ticker : Type := mkTicker {
  period : Z;
  resets : nat;
  stopped : bool
}.

Definition TickerFactory : Type := Z -> Ticker.

Definition NewRealTicker : TickerFactory := fun interval => mkTicker interval 0%nat false.

Definition Reset (t : Ticker) : Ticker := mkTicker (period t) (S (resets t)) (stopped t).

Definition Stop (t : Ticker) : Ticker := mkTicker (period t) (resets t) true.

End clock.

(** ** The output channel and the sink *)

(** Modelled from the spec: the output channel ([NewOutputChannel] and the
    methods [Write], [Read] and [Close] are not among the sources). The spec
    has "a fixed-capacity, closable queue of ready batches", and "once
    closed, no further pushes occur; pending items already queued are still
    delivered to workers before the queue reports drained". The capacity is
    kept as data: a push onto a full queue suspends the caller until a worker
    has made room and then enqueues, so the contents are those of the queue
    below. *)
Record OutputChannel : Type := mkOutputChannel {
  capacity : Z;
  queue : list (list Message);
  closed : bool
}.

Definition NewOutputChannel (bufferSize : Z) : OutputChannel :=
  mkOutputChannel bufferSize [] false.

Definition OutputChannelWrite (c : OutputChannel) (ready : list Message) : OutputChannel :=
  if closed c then c else mkOutputChannel (capacity c) (queue c ++ [ready]) (closed c).

Definition OutputChannelClose (c : OutputChannel) : OutputChannel :=
  mkOutputChannel (capacity c) (queue c) true.

(** What [Read] gives a worker: the oldest batch with [ok = true], [ok =
    false] once the channel is closed and empty, or nothing yet (the worker
    stays suspended). *)
Inductive ReadResult : Type :=
| ReadBatch (ready : list Message) (rest : OutputChannel)
| ReadDrained
| ReadSuspended.

Definition OutputChannelRead (c : OutputChannel) : ReadResult :=
  match queue c with
  | ready :: rest => ReadBatch ready (mkOutputChannel (capacity c) rest (closed c))
  | [] => if closed c then ReadDrained else ReadSuspended
  end.

(** [context.Context], as far as the daemon hands it on. *)
Record Context : Type := mkContext { canceled : bool }.

(** The sink behind the [Output] interface: how it answers
    [Write(ctx, batch)], and the batches it has been handed so far. *)
Record Output : Type := mkOutput {
  answer : Context -> list Message -> option error;
  received : list (list Message)
}.

Definition OutputWrite (o : Output) (ctx : Context) (ready : list Message) : Output * option error :=
  (mkOutput (answer o) (received o ++ [ready]), answer o ctx ready).

(** ** The daemon *)

Record ProducerDaemonSettings : Type := mkSettings {
  Enabled : bool;
  Interval : Z;
  BufferSize : Z;
  RunnerCount : Z;
  BatchSize : Z;
  AggregationSize : Z;
  MessageAttributes : gmap string AttrValue
}.

(** The struct [ProducerDaemon]; the mutex [lck] is the atomicity of the
    steps below, and [ticker] is nil ([None]) until [Run] sets it. *)
Record ProducerDaemon : Type := mkProducerDaemon {
  name : string;
  logger : mon.Logger;
  metric : mon.MetricWriter;
  aggregate : list Message;
  batch : list Message;
  outCh : OutputChannel;
  output : Output;
  tickerFactory : clock.TickerFactory;
  ticker : option clock.Ticker;
  marshaller : AggregateMarshaller;
  settings : ProducerDaemonSettings
}.

(** Assignments to one field. *)
Definition set_logger (d : ProducerDaemon) (v : mon.Logger) : ProducerDaemon :=
  mkProducerDaemon (name d) v (metric d) (aggregate d) (batch d) (outCh d) (output d)
    (tickerFactory d) (ticker d) (marshaller d) (settings d).

Definition set_metric (d : ProducerDaemon) (v : mon.MetricWriter) : ProducerDaemon :=
  mkProducerDaemon (name d) (logger d) v (aggregate d) (batch d) (outCh d) (output d)
    (tickerFactory d) (ticker d) (marshaller d) (settings d).

Definition set_aggregate (d : ProducerDaemon) (v : list Message) : ProducerDaemon :=
  mkProducerDaemon (name d) (logger d) (metric d) v (batch d) (outCh d) (output d)
    (tickerFactory d) (ticker d) (marshaller d) (settings d).

Definition set_batch (d : ProducerDaemon) (v : list Message) : ProducerDaemon :=
  mkProducerDaemon (name d) (logger d) (metric d) (aggregate d) v (outCh d) (output d)
    (tickerFactory d) (ticker d) (marshaller d) (settings d).

Definition set_outCh (d : ProducerDaemon) (v : OutputChannel) : ProducerDaemon :=
  mkProducerDaemon (name d) (logger d) (metric d) (aggregate d) (batch d) v (output d)
    (tickerFactory d) (ticker d) (marshaller d) (settings d).

Definition set_output (d : ProducerDaemon) (v : Output) : ProducerDaemon :=
  mkProducerDaemon (name d) (logger d) (metric d) (aggregate d) (batch d) (outCh d) v
    (tickerFactory d) (ticker d) (marshaller d) (settings d).

Definition set_ticker (d : ProducerDaemon) (v : option clock.Ticker) : ProducerDaemon :=
  mkProducerDaemon (name d) (logger d) (metric d) (aggregate d) (batch d) (outCh d) (output d)
    (tickerFactory d) v (marshaller d) (settings d).

(** [make([]WritableMessage, 0, n)]: a negative capacity panics. *)
Definition make_slice (n : Z) : outcome (list Message) :=
  if n <? 0 then Panics "makeslice: cap out of range" else Returns [].

Definition NewProducerDaemonWithInterfaces (logger : mon.Logger) (metric : mon.MetricWriter)
    (output : Output) (tickerFactory : clock.TickerFactory) (marshaller : AggregateMarshaller)
    (name : string) (settings : ProducerDaemonSettings) : outcome ProducerDaemon :=
  empty ← make_slice (BatchSize settings);
  Returns (mkProducerDaemon name logger metric [] empty
             (NewOutputChannel (BufferSize settings)) output tickerFactory None
             marshaller settings).

Definition dimensions (d : ProducerDaemon) : gmap string string :=
  {[ "ProducerDaemon" := name d ]}.

Definition writeMetricMessageCount (d : ProducerDaemon) (count : Z) : ProducerDaemon :=
  set_metric d (mon.WriteOne (metric d)
    (mon.mkMetricDatum 0 metricNameMessageCount (dimensions d) count "")).

Definition writeMetricBatchSize (d : ProducerDaemon) (size : Z) : ProducerDaemon :=
  set_metric d (mon.WriteOne (metric d)
    (mon.mkMetricDatum 0 metricNameBatchSize (dimensions d) size "")).

Definition writeMetricAggregateSize (d : ProducerDaemon) (size : Z) : ProducerDaemon :=
  set_metric d (mon.WriteOne (metric d)
    (mon.mkMetricDatum 0 metricNameAggregateSize (dimensions d) size "")).

Definition writeMetricIdleDuration (d : ProducerDaemon) (idleDuration : Z) : ProducerDaemon :=
  let idleDuration :=
    if Interval (settings d) <? idleDuration then Interval (settings d) else idleDuration in
  set_metric d (mon.WriteOne (metric d)
    (mon.mkMetricDatum mon.PriorityHigh metricNameIdleDuration (dimensions d)
       (time.Milliseconds idleDuration) mon.UnitMillisecondsAverage)).

Definition BuildAggregateMessage (marshaller : AggregateMarshaller) (aggregate : list Message)
    (attributes : list (gmap string AttrValue)) : result Message :=
  marshaller aggregate (attributes ++ [ {[ AttributeAggregate := AttrBool true ]} ]).

Definition flushAggregate (d : ProducerDaemon) : outcome (ProducerDaemon * result (list Message)) :=
  if len (aggregate d) =? 0 then Returns (d, Ok [])
  else
    let size := AggregationSize (settings d) in
    let size := if len (aggregate d) <? size then len (aggregate d) else size in
    '(readyAggregate, rest) ← split_at (aggregate d) size;
    let d := set_aggregate d rest in
    let d := writeMetricAggregateSize d (len readyAggregate) in
    match BuildAggregateMessage (marshaller d) readyAggregate [MessageAttributes (settings d)] with
    | Err err => Returns (d, Err (ErrWrap "can not marshal aggregate" err))
    | Ok aggregateMessage => Returns (d, Ok [aggregateMessage])
    end.

Definition applyAggregation (d : ProducerDaemon) (msgs : list Message)
    : outcome (ProducerDaemon * result (list Message)) :=
  if AggregationSize (settings d) <=? 1 then Returns (d, Ok msgs)
  else
    let d := set_aggregate d (aggregate d ++ msgs) in
    if len (aggregate d) <? AggregationSize (settings d) then Returns (d, Ok [])
    else flushAggregate d.

Definition flushBatch (d : ProducerDaemon) : outcome ProducerDaemon :=
  if len (batch d) =? 0 then Returns d
  else
    let size := BatchSize (settings d) in
    let size := if len (batch d) <? size then len (batch d) else size in
    '(readyBatch, rest) ← split_at (batch d) size;
    let d := set_batch d rest in
    Returns (set_outCh d (OutputChannelWrite (outCh d) readyBatch)).

Definition flushAll (d : ProducerDaemon) : outcome (ProducerDaemon * option error) :=
  '(d, r) ← flushAggregate d;
  match r with
  | Err err => Returns (d, Some (ErrWrap "can not flush aggregation" err))
  | Ok carrier =>
      let d := set_batch d (batch d ++ carrier) in
      d ← flushBatch d;
      Returns (d, None)
  end.

(** [d.ticker.Reset()]: a method call on a nil interface value panics. *)
Definition tickerReset (d : ProducerDaemon) : outcome ProducerDaemon :=
  match ticker d with
  | Some t => Returns (set_ticker d (Some (clock.Reset t)))
  | None => Panics "invalid memory address or nil pointer dereference"
  end.

Definition Write (d : ProducerDaemon) (ctx : Context) (msgs : list Message)
    : outcome (ProducerDaemon * option error) :=
  let d := writeMetricMessageCount d (len msgs) in
  '(d, r) ← applyAggregation d msgs;
  match r with
  | Err err =>
      Returns (d, Some (ErrWrap ("can not apply aggregation in producer " +:+ name d) err))
  | Ok carrier =>
      let d := set_batch d (batch d ++ carrier) in
      if len (batch d) <? BatchSize (settings d) then Returns (d, None)
      else
        d ← tickerReset d;
        d ← flushBatch d;
        Returns (d, None)
  end.

Definition WriteOne (d : ProducerDaemon) (ctx : Context) (msg : Message)
    : outcome (ProducerDaemon * option error) :=
  Write d ctx [msg].

(** The first statement of [Run]: the ticker is created from the factory. *)
Definition RunStart (d : ProducerDaemon) : ProducerDaemon :=
  set_ticker d (Some (tickerFactory d (Interval (settings d)))).

(** [tickerLoop], the case of a tick: a forced flush whose error is logged. *)
Definition tickerLoopTick (d : ProducerDaemon) : outcome ProducerDaemon :=
  '(d, err) ← flushAll d;
  match err with
  | Some e => Returns (set_logger d (mon.LoggerError (logger d) e "can not flush all messages"))
  | None => Returns d
  end.

(** [tickerLoop], the case of a cancelled context: the ticker is stopped. *)
Definition tickerLoopDone (d : ProducerDaemon) : outcome ProducerDaemon :=
  match ticker d with
  | Some t => Returns (set_ticker d (Some (clock.Stop t)))
  | None => Panics "invalid memory address or nil pointer dereference"
  end.

(** [close]: the forced flush, then the deferred [outCh.Close()], which runs
    on the error path too. *)
Definition close (d : ProducerDaemon) : outcome (ProducerDaemon * option error) :=
  '(d, err) ← flushAll d;
  let d := set_outCh d (OutputChannelClose (outCh d)) in
  match err with
  | Some e => Returns (d, Some (ErrWrap "can not flush all messages" e))
  | None => Returns (d, None)
  end.

(** ** The worker *)

(** Where one pass of the worker's loop ends: at the loop head again, at the
    [return nil] of a drained channel, or suspended in [Read]. *)
Inductive LoopStep : Type :=
| LoopNext (d : ProducerDaemon)
| LoopReturn (d : ProducerDaemon) (err : option error)
| LoopSuspended (d : ProducerDaemon).

Section Worker.

(** [exec.IsRequestCanceled], of a package that is not among the sources. *)
Variable IsRequestCanceled : error -> bool.

(** One pass through the body of [outputLoop]. [idleDuration] is what
    [time.Since(start)] measured around the [Read]. The branches on the
    sink's error only call the logger, so they are the logger's new value. *)
Definition outputLoopPass (d : ProducerDaemon) (ctx : Context) (idleDuration : Z) : LoopStep :=
  match OutputChannelRead (outCh d) with
  | ReadSuspended => LoopSuspended d
  | ReadDrained => LoopReturn d None
  | ReadBatch ready rest =>
      let d := set_outCh d rest in
      let '(sink, err) := OutputWrite (output d) ctx ready in
      let d := set_output d sink in
      let d :=
        set_logger d
          match err with
          | Some e =>
              if IsRequestCanceled e
              then mon.LoggerWarn (logger d)
                     ("can not write messages to output in producer " +:+ name d
                      +:+ " because of canceled context")
              else mon.LoggerError (logger d) e
                     ("can not write messages to output in producer " +:+ name d)
          | None => logger d
          end in
      let d := writeMetricBatchSize d (len ready) in
      LoopNext (writeMetricIdleDuration d idleDuration)
  end.

(** [outputLoop], one pass per measured idle duration; with the
    measurements used up the worker stands at the loop head. *)
Fixpoint outputLoop (d : ProducerDaemon) (ctx : Context) (idleDurations : list Z) : LoopStep :=
  match idleDurations with
  | [] => LoopNext d
  | idleDuration :: later =>
      match outputLoopPass d ctx idleDuration with
      | LoopNext d => outputLoop d ctx later
      | stop => stop
      end
  end.

End Worker.

(** ** The registry of daemons *)

Definition getProducerDaemonDefaultMetrics (name : string) : list mon.MetricDatum :=
  [ mon.mkMetricDatum mon.PriorityHigh metricNameMessageCount
      {[ "ProducerDaemon" := name ]} 0 mon.UnitCount;
    mon.mkMetricDatum mon.PriorityHigh metricNameBatchSize
      {[ "ProducerDaemon" := name ]} 0 mon.UnitCountAverage;
    mon.mkMetricDatum mon.PriorityHigh metricNameAggregateSize
      {[ "ProducerDaemon" := name ]} 0 mon.UnitCountAverage ].

Module ProducerSettings.

(** What [readProducerSettings] returns, as far as [NewProducerDaemon]
    reads it. *)
Record t : Type := mk {
  Output : string;
  Daemon : ProducerDaemonSettings
}.

End ProducerSettings.

(** A [*ProducerDaemon]: nil, or the address of a daemon on the heap. *)
Definition ptr : Type := option nat.

(** The package-level variable [producerDaemons] and the daemons allocated
    so far; [producerDaemonLock] makes each function below one step. *)
Record Package : Type := mkPackage {
  producerDaemons : gmap string ptr;
  heap : list ProducerDaemon
}.

Definition ResetProducerDaemons (pkg : Package) : Package :=
  mkPackage ∅ (heap pkg).

Section Registry.

(** Functions of this package and of [cfg] that are not among the sources. *)
Variable Config : Type.
Variable readProducerSettings : Config -> string -> ProducerSettings.t.
Variable NewConfigurableOutput : Config -> mon.Logger -> string -> result Output.
Variable MarshalJsonMessage : AggregateMarshaller.

Definition NewProducerDaemon (config : Config) (logger : mon.Logger) (name : string)
    (heap : list ProducerDaemon) : outcome (list ProducerDaemon * (ptr * option error)) :=
  let settings := readProducerSettings config name in
  match NewConfigurableOutput config logger (ProducerSettings.Output settings) with
  | Err err =>
      Returns (heap, (None,
        Some (ErrWrap ("can not create output for producer daemon " +:+ name) err)))
  | Ok output =>
      let defaultMetrics := getProducerDaemonDefaultMetrics name in
      let metric := mon.NewMetricDaemonWriter defaultMetrics in
      empty ← make_slice (BatchSize (ProducerSettings.Daemon settings));
      Returns (heap ++ [mkProducerDaemon name logger metric [] empty
                 (NewOutputChannel (BufferSize (ProducerSettings.Daemon settings)))
                 output clock.NewRealTicker None MarshalJsonMessage
                 (ProducerSettings.Daemon settings)],
               (Some (length heap), None))
  end.

(** The tuple assignment stores what the constructor returned under [name]
    before the error is looked at. *)
Definition ProvideProducerDaemon (config : Config) (logger : mon.Logger) (name : string)
    (pkg : Package) : outcome (Package * (ptr * option error)) :=
  match producerDaemons pkg !! name with
  | Some p => Returns (pkg, (p, None))
  | None =>
      '(heap, (p, err)) ← NewProducerDaemon config logger name (heap pkg);
      let pkg := mkPackage (<[name := p]> (producerDaemons pkg)) heap in
      match err with
      | Some e => Returns (pkg, (None, Some e))
      | None => Returns (pkg, (default None (producerDaemons pkg !! name), None))
      end
  end.

End Registry.

(** ** Specification vocabulary *)

(** What a forced flush hands from the aggregator to the batcher: nothing
    for an empty pending aggregate buffer, otherwise the one carrier message
    folded from the front of the buffer, at most [AggregationSize] messages. *)
Definition folded (d : ProducerDaemon) (carrier : list Message) : Prop :=
  match aggregate d with
  | [] => carrier = []
  | _ :: _ =>
      exists aggregateMessage,
        BuildAggregateMessage (marshaller d)
          (take (Z.to_nat (AggregationSize (settings d))) (aggregate d))
          [MessageAttributes (settings d)]
          = Ok aggregateMessage
        /\ carrier = [aggregateMessage]
  end.

(** The messages the batcher holds or has queued for the workers, oldest
    first: the batches on the output channel, then the pending batch
    buffer. *)
Definition pending (d : ProducerDaemon) : list Message :=
  concat (queue (outCh d)) ++ batch d.

(** What neither a write nor a flush assigns. *)
Definition configured_as (d d' : ProducerDaemon) : Prop :=
  name d' = name d
  /\ settings d' = settings d
  /\ marshaller d' = marshaller d
  /\ tickerFactory d' = tickerFactory d
  /\ output d' = output d
  /\ logger d' = logger d.

(** A caller that hands over [calls] one [Write] at a time, in order, and
    gives up at the first error. *)
Fixpoint WriteEach (d : ProducerDaemon) (ctx : Context) (calls : list (list Message))
    : outcome (ProducerDaemon * option error) :=
  match calls with
  | [] => Returns (d, None)
  | msgs :: later =>
      '(d, err) ← Write d ctx msgs;
      match err with
      | Some e => Returns (d, Some e)
      | None => WriteEach d ctx later
      end
  end.

(** What the aggregator makes of one [Write] that does not fail: the carrier
    messages it hands to the batcher and the aggregate buffer it keeps. *)
Definition aggregates (d : ProducerDaemon) (msgs carrier kept : list Message) : Prop :=
  if AggregationSize (settings d) <=? 1 then carrier = msgs /\ kept = aggregate d
  else if len (aggregate d ++ msgs) <? AggregationSize (settings d)
  then carrier = [] /\ kept = aggregate d ++ msgs
  else
    exists aggregateMessage,
      BuildAggregateMessage (marshaller d)
        (take (Z.to_nat (AggregationSize (settings d))) (aggregate d ++ msgs))
        [MessageAttributes (settings d)] = Ok aggregateMessage
      /\ carrier = [aggregateMessage]
      /\ kept = drop (Z.to_nat (AggregationSize (settings d))) (aggregate d ++ msgs).

(** Every batch queued for the workers holds at least one message and at
    most [BatchSize]. *)
Definition well_sized (d : ProducerDaemon) : Prop :=
  Forall (fun ready => 1 <= len ready <= BatchSize (settings d)) (queue (outCh d)).

(** What the caller of [Write] gets back. *)
Definition returned (o : outcome (ProducerDaemon * option error)) : outcome (option error) :=
  match o with
  | Returns (_, err) => Returns err
  | Panics why => Panics why
  end.

(** ** Concrete daemons

    Small inputs on which the statements below are evaluated. *)

Module Example.

(** Message number [n]: no attributes, a one-letter body ("A" for 0). *)
Definition msg (n : nat) : Message :=
  mkMessage ∅ (String (Ascii.ascii_of_nat (65 + n)) "").

Definition msgs (n : nat) : list Message := map msg (seq 0 n).

(** A marshaller that joins the bodies and merges the attribute maps. *)
Definition joining : AggregateMarshaller := fun body attributes =>
  Ok (mkMessage (foldr (fun m acc => m ∪ acc) ∅ attributes)
                (foldr (fun m acc => Body m +:+ acc) "" body)).

Definition failing : AggregateMarshaller := fun _ _ => Err (ErrLeaf "unsupported body").

Definition accepting : Output := mkOutput (fun _ _ => None) [].

Definition rejecting : Output := mkOutput (fun _ _ => Some (ErrLeaf "connection reset")) [].

Definition ctx : Context := mkContext false.

Definition settingsOf (batchSize aggregationSize : Z) : ProducerDaemonSettings :=
  mkSettings true time.Second 10 1 batchSize aggregationSize ∅.

(** The daemon [NewProducerDaemonWithInterfaces] builds from these parts. *)
Definition created (batchSize aggregationSize : Z) (marshaller : AggregateMarshaller)
    (sink : Output) : ProducerDaemon :=
  mkProducerDaemon "example" [] (mon.NewMetricDaemonWriter []) [] []
    (NewOutputChannel 10) sink clock.NewRealTicker None marshaller
    (settingsOf batchSize aggregationSize).

(** The same daemon once [Run] has created its ticker. *)
Definition running (batchSize aggregationSize : Z) (marshaller : AggregateMarshaller)
    (sink : Output) : ProducerDaemon :=
  RunStart (created batchSize aggregationSize marshaller sink).

(** The daemon a call leaves behind; the argument itself if the call
    panicked. *)
Definition after (d : ProducerDaemon) (o : outcome (ProducerDaemon * option error))
    : ProducerDaemon :=
  match o with
  | Returns (d', _) => d'
  | Panics _ => d
  end.

(** The daemon a timer tick leaves behind; the argument itself if it
    panicked. *)
Definition ticked (d : ProducerDaemon) : ProducerDaemon :=
  match tickerLoopTick d with
  | Returns d' => d'
  | Panics _ => d
  end.

(** The daemon as the worker's loop leaves it. *)
Definition worked (s : LoopStep) : ProducerDaemon :=
  match s with
  | LoopNext d => d
  | LoopReturn d _ => d
  | LoopSuspended d => d
  end.

(** A configuration under which every producer gets the same settings and
    an accepting sink, and one whose output cannot be built. *)
Definition readSettings (config : unit) (name : string) : ProducerSettings.t :=
  ProducerSettings.mk "sink" (settingsOf 10 1).

Definition newOutput (config : unit) (logger : mon.Logger) (output : string) : result Output :=
  Ok accepting.

Definition noOutput (config : unit) (logger : mon.Logger) (output : string) : result Output :=
  Err (ErrLeaf "unknown output type").

Definition emptyPackage : Package := mkPackage ∅ [].

(** The package a call of [ProvideProducerDaemon] leaves behind. *)
Definition registered (o : outcome (Package * (ptr * option error))) : Package :=
  match o with
  | Returns (pkg, _) => pkg
  | Panics _ => emptyPackage
  end.

(** An error classifier for the worker: errors whose text says so. *)
Definition isCanceled (e : error) : bool :=
  match e with
  | ErrLeaf msg => bool_decide (msg = "context canceled")
  | ErrWrap _ _ => false
  end.

End Example.

(** * Properties *)

(** Reads of a field through the assignments and metric writes before it. *)
Ltac fields :=
  cbn [name logger metric aggregate batch outCh output tickerFactory ticker marshaller
       settings set_logger set_metric set_aggregate set_batch set_outCh set_output
       set_ticker writeMetricMessageCount writeMetricBatchSize writeMetricAggregateSize
       writeMetricIdleDuration].

Tactic Notation "fields" "in" hyp(H) :=
  cbn [name logger metric aggregate batch outCh output tickerFactory ticker marshaller
       settings set_logger set_metric set_aggregate set_batch set_outCh set_output
       set_ticker writeMetricMessageCount writeMetricBatchSize writeMetricAggregateSize
       writeMetricIdleDuration] in H.

(** Evaluation of a call on a daemon whose collaborators are not known:
    what is written to the logger and the metric writer stays as written. *)
Ltac run_call :=
  lazy -[dimensions String.append mon.WriteOne mon.LoggerWarn mon.LoggerError
         time.Milliseconds].

(** ** Slices *)

Lemma len_nil {A : Type} : len (@nil A) = 0.
Proof. reflexivity. Qed.


Lemma len_nonneg {A : Type} (l : list A) : 0 <= len l.
Proof. unfold len. lia. Qed.

Lemma len_zero_nil {A : Type} (l : list A) : len l = 0 -> l = [].
Proof. destruct l; [reflexivity | unfold len; simpl; lia]. Qed.

Lemma len_take {A : Type} (l : list A) (n : Z) :
  0 <= n -> len (take (Z.to_nat n) l) = Z.min n (len l).
Proof. intros Hn. unfold len. rewrite length_take. lia. Qed.


Lemma split_at_in_range {A : Type} (l : list A) (n : Z) :
  0 <= n <= len l ->
  split_at l n = Returns (take (Z.to_nat n) l, drop (Z.to_nat n) l).
Proof.
  intros [Hlo Hhi]. unfold split_at.
  destruct (Z.leb_spec 0 n); [| lia].
  destruct (Z.leb_spec n (len l)); [reflexivity | lia].
Qed.

Lemma split_at_negative {A : Type} (l : list A) (n : Z) :
  n < 0 -> split_at l n = Panics "slice bounds out of range".
Proof.
  intros Hn. unfold split_at. destruct (Z.leb_spec 0 n); [lia | reflexivity].
Qed.

Lemma snoc_snoc {A : Type} (l : list A) (a b : A) :
  (l ++ [a]) ++ [b] = l ++ [a; b].
Proof. rewrite <- app_assoc. reflexivity. Qed.

Lemma snoc_snoc_snoc {A : Type} (l : list A) (a b c : A) :
  ((l ++ [a]) ++ [b]) ++ [c] = l ++ [a; b; c].
Proof. rewrite <- !app_assoc. reflexivity. Qed.

Lemma take_min_len {A : Type} (l : list A) (n : Z) :
  take (Z.to_nat (Z.min n (len l))) l = take (Z.to_nat n) l.
Proof.
  destruct (Z.le_ge_cases n (len l)) as [H | H].
  - rewrite Z.min_l by exact H. reflexivity.
  - rewrite Z.min_r by lia. unfold len in *. rewrite Nat2Z.id.
    rewrite firstn_all. symmetry. apply take_ge. lia.
Qed.

Lemma drop_min_len {A : Type} (l : list A) (n : Z) :
  drop (Z.to_nat (Z.min n (len l))) l = drop (Z.to_nat n) l.
Proof.
  destruct (Z.le_ge_cases n (len l)) as [H | H].
  - rewrite Z.min_l by exact H. reflexivity.
  - rewrite Z.min_r by lia. unfold len in *. rewrite Nat2Z.id.
    rewrite drop_all. symmetry. apply drop_ge. lia.
Qed.

(** The size a flush takes: the threshold, or the whole buffer when that is
    shorter. *)
Lemma flush_size_min (n size : Z) :
  (if n <? size then n else size) = Z.min size n.
Proof. destruct (Z.ltb_spec n size); lia. Qed.

(** ** The equations of the two flushes *)

Lemma flushAggregate_empty (d : ProducerDaemon) :
  aggregate d = [] -> flushAggregate d = Returns (d, Ok []).
Proof. intros H. unfold flushAggregate. rewrite H. reflexivity. Qed.

Lemma flushAggregate_nonempty (d : ProducerDaemon) :
  aggregate d <> [] ->
  0 <= AggregationSize (settings d) ->
  let n := Z.to_nat (Z.min (AggregationSize (settings d)) (len (aggregate d))) in
  let d' := writeMetricAggregateSize (set_aggregate d (drop n (aggregate d)))
              (len (take n (aggregate d))) in
  flushAggregate d =
    match BuildAggregateMessage (marshaller d) (take n (aggregate d))
            [MessageAttributes (settings d)] with
    | Err err => Returns (d', Err (ErrWrap "can not marshal aggregate" err))
    | Ok aggregateMessage => Returns (d', Ok [aggregateMessage])
    end.
Proof.
  intros Hne HA n d'. unfold flushAggregate.
  destruct (Z.eqb_spec (len (aggregate d)) 0) as [E | _].
  { exfalso. apply Hne, len_zero_nil, E. }
  rewrite flush_size_min.
  rewrite split_at_in_range by (pose proof (len_nonneg (aggregate d)); lia).
  reflexivity.
Qed.

Lemma flushBatch_empty (d : ProducerDaemon) :
  batch d = [] -> flushBatch d = Returns d.
Proof. intros H. unfold flushBatch. rewrite H. reflexivity. Qed.

Lemma flushBatch_nonempty (d : ProducerDaemon) :
  batch d <> [] ->
  0 <= BatchSize (settings d) ->
  let n := Z.to_nat (Z.min (BatchSize (settings d)) (len (batch d))) in
  flushBatch d =
    Returns (set_outCh (set_batch d (drop n (batch d)))
               (OutputChannelWrite (outCh d) (take n (batch d)))).
Proof.
  intros Hne HB n. unfold flushBatch.
  destruct (Z.eqb_spec (len (batch d)) 0) as [E | _].
  { exfalso. apply Hne, len_zero_nil, E. }
  rewrite flush_size_min.
  rewrite split_at_in_range by (pose proof (len_nonneg (batch d)); lia).
  reflexivity.
Qed.

(** ** The aggregator *)



(** C5. When a [Write] call reaches the aggregation threshold (aggregation
    size above one) and the marshaller reports an error, the call returns
    that error wrapped, the pending batch buffer and the output channel are
    as before the call, and the [AggregationSize] messages taken off the
    front of the aggregate buffer are gone: the buffer holds only what came
    after them. *)
Theorem Write_fold_failure (d : ProducerDaemon) (ctx : Context) (msgs : list Message)
    (err : error) :
  1 < AggregationSize (settings d) ->
  AggregationSize (settings d) <= len (aggregate d ++ msgs) ->
  BuildAggregateMessage (marshaller d)
    (take (Z.to_nat (AggregationSize (settings d))) (aggregate d ++ msgs))
    [MessageAttributes (settings d)] = Err err ->
  exists d',
    Write d ctx msgs =
      Returns (d', Some (ErrWrap ("can not apply aggregation in producer " +:+ name d)
                           (ErrWrap "can not marshal aggregate" err)))
    /\ batch d' = batch d
    /\ outCh d' = outCh d
    /\ aggregate d' = drop (Z.to_nat (AggregationSize (settings d))) (aggregate d ++ msgs)
    /\ aggregate d ++ msgs =
         take (Z.to_nat (AggregationSize (settings d))) (aggregate d ++ msgs) ++ aggregate d'.
Proof.
  intros HA Hge Hfold.
  set (size := Z.to_nat (AggregationSize (settings d))) in *.
  set (pending := aggregate d ++ msgs) in *.
  assert (Hmin : Z.min (AggregationSize (settings d)) (len pending)
                 = AggregationSize (settings d)) by lia.
  exists (writeMetricAggregateSize
            (set_aggregate (writeMetricMessageCount d (len msgs)) (drop size pending))
            (AggregationSize (settings d))).
  split; [| cbn; repeat split; symmetry; apply take_drop].
  unfold Write, applyAggregation.
  cbn [settings aggregate writeMetricMessageCount set_metric set_aggregate].
  destruct (Z.leb_spec (AggregationSize (settings d)) 1); [lia |].
  fold pending.
  destruct (Z.ltb_spec (len pending) (AggregationSize (settings d))); [lia |].
  match goal with |- context [flushAggregate ?x] => set (d1 := x) end.
  assert (Hne : aggregate d1 <> []).
  { unfold d1. cbn [aggregate set_aggregate]. intros E. rewrite E, len_nil in Hge. lia. }
  rewrite (flushAggregate_nonempty d1 Hne) by (unfold d1; cbn; lia).
  unfold d1.
  cbn [aggregate settings marshaller set_aggregate set_metric writeMetricMessageCount].
  rewrite Hmin. fold size. rewrite Hfold.
  unfold size at 2. rewrite len_take by lia. rewrite Hmin. reflexivity.
Qed.

Lemma Write_fold_failure_witness :
  exists d',
    Write (Example.running 10 3 Example.failing Example.accepting) Example.ctx
      (Example.msgs 4) =
      Returns (d', Some (ErrWrap "can not apply aggregation in producer example"
                           (ErrWrap "can not marshal aggregate" (ErrLeaf "unsupported body"))))
    /\ batch d' = []
    /\ queue (outCh d') = []
    /\ aggregate d' = [Example.msg 3].
Proof.
  destruct (Write_fold_failure (Example.running 10 3 Example.failing Example.accepting)
              Example.ctx (Example.msgs 4) (ErrLeaf "unsupported body"))
    as (d' & HW & Hb & Hc & Ha & _).
  - vm_compute. reflexivity.
  - vm_compute. discriminate.
  - reflexivity.
  - exists d'. rewrite HW, Hb, Hc, Ha. repeat split.
Defined.

(** ** The batcher *)

(** C6. [flushBatch] has no threshold test of its own: it takes
    [min BatchSize (len batch)] messages off the front of the pending batch
    buffer, hands them as one batch to the output channel, which appends
    them to its queue while it is open, and keeps the remainder in order; on
    an empty buffer it changes nothing and writes nothing. *)
Theorem flushBatch_moves_front (d : ProducerDaemon) :
  0 <= BatchSize (settings d) ->
  let n := Z.to_nat (Z.min (BatchSize (settings d)) (len (batch d))) in
  (batch d = [] -> flushBatch d = Returns d)
  /\
  (batch d <> [] ->
     exists d',
       flushBatch d = Returns d'
       /\ outCh d' = OutputChannelWrite (outCh d) (take n (batch d))
       /\ (closed (outCh d) = false ->
           queue (outCh d') = queue (outCh d) ++ [take n (batch d)])
       /\ batch d' = drop n (batch d)
       /\ batch d = take n (batch d) ++ batch d'
       /\ len (take n (batch d)) = Z.min (BatchSize (settings d)) (len (batch d))
       /\ aggregate d' = aggregate d).
Proof.
  intros HB n. split; [apply flushBatch_empty |].
  intros Hne. eexists. split; [apply (flushBatch_nonempty d Hne HB) |].
  fold n. fields.
  split; [reflexivity |].
  split; [intros Hopen; unfold OutputChannelWrite; rewrite Hopen; reflexivity |].
  repeat split.
  - symmetry. apply take_drop.
  - unfold n. pose proof (len_nonneg (batch d)). rewrite len_take by lia. lia.
Qed.

Lemma flushBatch_moves_front_witness :
  exists d',
    flushBatch (set_batch (Example.running 2 1 Example.joining Example.accepting)
                  (Example.msgs 3)) = Returns d'
    /\ queue (outCh d') = [[Example.msg 0; Example.msg 1]]
    /\ batch d' = [Example.msg 2].
Proof.
  pose proof (flushBatch_moves_front
                (set_batch (Example.running 2 1 Example.joining Example.accepting)
                   (Example.msgs 3))) as H.
  destruct H as [_ H]; [vm_compute; discriminate |].
  destruct H as (d' & HF & _ & Hq & Hb & _); [discriminate |].
  exists d'. rewrite HF, Hq, Hb by reflexivity. repeat split.
Defined.

(** ** The forced flush *)

(** C2, as amended. A forced flush on an open output channel, with folding
    not failing, takes the front of the pending aggregate buffer, at most
    [AggregationSize] messages and below the threshold or not, and folds it
    into one carrier message if the buffer is non-empty; it then takes the
    front of the pending batch buffer with that carrier appended, at most
    [BatchSize] messages and below the threshold or not, and pushes it as one
    batch onto the output channel if non-empty. What lies beyond the two
    sizes stays pending. So both buffers are empty afterwards when what was
    pending fits one flush: at most [AggregationSize] messages to fold and,
    with the carrier, at most [BatchSize] to push. *)
Theorem flushAll_drains (d : ProducerDaemon) (carrier : list Message) :
  0 <= AggregationSize (settings d) ->
  0 <= BatchSize (settings d) ->
  closed (outCh d) = false ->
  folded d carrier ->
  exists d',
    flushAll d = Returns (d', None)
    /\ aggregate d' = drop (Z.to_nat (AggregationSize (settings d))) (aggregate d)
    /\ batch d' = drop (Z.to_nat (BatchSize (settings d))) (batch d ++ carrier)
    /\ queue (outCh d') =
         queue (outCh d) ++
           (if decide (batch d ++ carrier = []) then []
            else [take (Z.to_nat (BatchSize (settings d))) (batch d ++ carrier)])
    /\ (len (aggregate d) <= AggregationSize (settings d) ->
        len (batch d ++ carrier) <= BatchSize (settings d) ->
        aggregate d' = []
        /\ batch d' = []
        /\ queue (outCh d') =
             queue (outCh d) ++
               (if decide (batch d ++ carrier = []) then [] else [batch d ++ carrier])).
Proof.
  intros HA HB Hopen Hfold. unfold flushAll.
  assert (Hflush : exists d1, flushAggregate d = Returns (d1, Ok carrier)
            /\ aggregate d1 = drop (Z.to_nat (AggregationSize (settings d))) (aggregate d)
            /\ batch d1 = batch d /\ outCh d1 = outCh d /\ settings d1 = settings d).
  { unfold folded in Hfold. destruct (aggregate d) as [| m rest] eqn:Hagg.
    - subst carrier. exists d. rewrite flushAggregate_empty by exact Hagg.
      rewrite Hagg, drop_nil. auto.
    - destruct Hfold as (am & Ham & ->).
      assert (Hne : aggregate d <> []) by (rewrite Hagg; discriminate).
      rewrite (flushAggregate_nonempty d Hne) by lia.
      rewrite Hagg, take_min_len, drop_min_len, Ham.
      eexists. split; [reflexivity |]. fields. auto. }
  destruct Hflush as (d1 & -> & Hagg1 & Hbat1 & Hch1 & Hset1).
  cbn [mbind outcome_bind].
  set (d2 := set_batch d1 (batch d1 ++ carrier)).
  assert (Hgen : exists d',
            flushBatch d2 = Returns d'
            /\ aggregate d' = drop (Z.to_nat (AggregationSize (settings d))) (aggregate d)
            /\ batch d' = drop (Z.to_nat (BatchSize (settings d))) (batch d ++ carrier)
            /\ queue (outCh d') =
                 queue (outCh d) ++
                   (if decide (batch d ++ carrier = []) then []
                    else [take (Z.to_nat (BatchSize (settings d))) (batch d ++ carrier)])).
  { destruct (decide (batch d ++ carrier = [])) as [Hnil | Hnonnil].
    - rewrite (flushBatch_empty d2)
        by (unfold d2; fields; rewrite Hbat1; exact Hnil).
      exists d2. unfold d2. fields. rewrite Hbat1, Hch1, Hnil, app_nil_r, drop_nil. auto.
    - assert (Hne2 : batch d2 <> [])
        by (unfold d2; fields; rewrite Hbat1; exact Hnonnil).
      rewrite (flushBatch_nonempty d2 Hne2) by (unfold d2; fields; rewrite Hset1; exact HB).
      eexists. split; [reflexivity |].
      unfold d2. fields. rewrite Hbat1, Hch1, Hset1, take_min_len, drop_min_len.
      unfold OutputChannelWrite. rewrite Hopen. auto. }
  destruct Hgen as (d' & -> & Ha & Hb & Hq). cbn [mbind outcome_bind].
  exists d'. split; [reflexivity |]. split; [exact Ha |]. split; [exact Hb |].
  split; [exact Hq |].
  intros Hfa Hfb. rewrite Ha, Hb, Hq.
  rewrite (drop_ge (aggregate d)) by (unfold len in *; lia).
  rewrite (drop_ge (batch d ++ carrier)) by (unfold len in *; lia).
  rewrite (take_ge (batch d ++ carrier)) by (unfold len in *; lia).
  auto.
Qed.

Lemma flushAll_drains_witness :
  exists d',
    flushAll (set_batch (set_aggregate (Example.running 10 3 Example.joining Example.accepting)
                           (Example.msgs 2))
                [Example.msg 5]) = Returns (d', None)
    /\ aggregate d' = []
    /\ batch d' = []
    /\ map (map Body) (queue (outCh d')) = [["F"; "AB"]].
Proof.
  destruct (flushAll_drains
              (set_batch (set_aggregate (Example.running 10 3 Example.joining Example.accepting)
                            (Example.msgs 2))
                 [Example.msg 5])
              [mkMessage {[ AttributeAggregate := AttrBool true ]} "AB"])
    as (d' & HF & _ & _ & _ & Hfit).
  - vm_compute. discriminate.
  - vm_compute. discriminate.
  - reflexivity.
  - eexists. split; reflexivity.
  - destruct Hfit as (Ha & Hb & Hq); [vm_compute; discriminate | vm_compute; discriminate |].
    exists d'. rewrite HF, Ha, Hb, Hq. repeat split.
Defined.

(** C2, as the claim states it, fails: a single [Write] of five messages
    with batch size two leaves three messages pending, and the forced flush
    that follows pushes two of them and keeps the third. The same happens on
    the aggregate side: seven pending messages with aggregation size three
    lose three to the forced flush and keep four. *)
Lemma flushAll_leaves_remainder :
  (exists d',
     flushAll (Example.after (Example.running 2 1 Example.joining Example.accepting)
                 (Write (Example.running 2 1 Example.joining Example.accepting)
                    Example.ctx (Example.msgs 5))) = Returns (d', None)
     /\ batch d' = [Example.msg 4]
     /\ ~ (aggregate d' = [] /\ batch d' = []))
  /\
  (exists d',
     flushAll (Example.after (Example.running 10 3 Example.joining Example.accepting)
                 (Write (Example.running 10 3 Example.joining Example.accepting)
                    Example.ctx (Example.msgs 10))) = Returns (d', None)
     /\ aggregate d' = [Example.msg 6; Example.msg 7; Example.msg 8; Example.msg 9]
     /\ ~ (aggregate d' = [] /\ batch d' = [])).
Proof.
  split.
  - exists (Example.after (Example.running 2 1 Example.joining Example.accepting)
              (flushAll (Example.after (Example.running 2 1 Example.joining Example.accepting)
                 (Write (Example.running 2 1 Example.joining Example.accepting)
                    Example.ctx (Example.msgs 5))))).
    split; [vm_compute; reflexivity |]. split; [vm_compute; reflexivity |].
    vm_compute. intros [_ Hb]. discriminate Hb.
  - exists (Example.after (Example.running 10 3 Example.joining Example.accepting)
              (flushAll (Example.after (Example.running 10 3 Example.joining Example.accepting)
                 (Write (Example.running 10 3 Example.joining Example.accepting)
                    Example.ctx (Example.msgs 10))))).
    split; [vm_compute; reflexivity |]. split; [vm_compute; reflexivity |].
    vm_compute. intros [Ha _]. discriminate Ha.
Qed.

(** ** The length invariant of the two buffers *)






(** ** The example scenario *)

(** C1, as amended. Interval 1s, batch size 10, aggregation size 1, one
    worker, nothing pending. One [Write] of 25 messages puts a single batch,
    the first 10 messages, onto the output channel; the worker hands it to
    the sink and then finds the channel empty. The first timer tick pushes
    the next 10 messages, which the worker hands to the sink, and only the
    second tick pushes the remaining 5. *)
Theorem scenario_write_25 (IsRequestCanceled : error -> bool) (d : ProducerDaemon)
    (t : clock.Ticker) (ctx : Context) (msgs : list Message) (i1 i2 i3 i4 i5 i6 : Z) :
  Interval (settings d) = time.Second ->
  BatchSize (settings d) = 10 ->
  AggregationSize (settings d) = 1 ->
  RunnerCount (settings d) = 1 ->
  ticker d = Some t ->
  aggregate d = [] ->
  batch d = [] ->
  queue (outCh d) = [] ->
  closed (outCh d) = false ->
  length msgs = 25%nat ->
  exists d1 w1 d2 w2 d3 w3,
    Write d ctx msgs = Returns (d1, None)
    /\ queue (outCh d1) = [take 10 msgs]
    /\ batch d1 = drop 10 msgs
    /\ outputLoop IsRequestCanceled d1 ctx [i1; i2] = LoopSuspended w1
    /\ received (output w1) = received (output d) ++ [take 10 msgs]
    /\ tickerLoopTick w1 = Returns d2
    /\ outputLoop IsRequestCanceled d2 ctx [i3; i4] = LoopSuspended w2
    /\ received (output w2) =
         received (output d) ++ [take 10 msgs; take 10 (drop 10 msgs)]
    /\ batch w2 = drop 20 msgs
    /\ tickerLoopTick w2 = Returns d3
    /\ outputLoop IsRequestCanceled d3 ctx [i5; i6] = LoopSuspended w3
    /\ received (output w3) =
         received (output d) ++ [take 10 msgs; take 10 (drop 10 msgs); drop 20 msgs]
    /\ length (drop 20 msgs) = 5%nat
    /\ batch w3 = []
    /\ aggregate w3 = [].
Proof.
  intros HI HB HA HR Ht Hg Hb Hq Hc Hlen.
  destruct d as [nm lg mt ag bt [cap qu cl] out tf tk ms [en iv bs rc bsz asz at']].
  cbn in HI, HB, HA, HR, Ht, Hg, Hb, Hq, Hc. subst.
  do 25 (destruct msgs as [| ? msgs]; [discriminate Hlen |]).
  destruct msgs; [| discriminate Hlen]. clear Hlen.
  eexists. eexists. eexists. eexists. eexists. eexists.
  split; [run_call; reflexivity |].
  split; [reflexivity |].
  split; [reflexivity |].
  split; [run_call; reflexivity |].
  split; [reflexivity |].
  split; [run_call; reflexivity |].
  split; [run_call; reflexivity |].
  split; [apply snoc_snoc |].
  split; [reflexivity |].
  split; [run_call; reflexivity |].
  split; [run_call; reflexivity |].
  split; [apply snoc_snoc_snoc |].
  repeat split.
Qed.

Lemma scenario_write_25_witness :
  exists d1 w3,
    Write (Example.running 10 1 Example.joining Example.accepting) Example.ctx
      (Example.msgs 25) = Returns (d1, None)
    /\ map (map Body) (queue (outCh d1))
       = [["A"; "B"; "C"; "D"; "E"; "F"; "G"; "H"; "I"; "J"]]
    /\ map (map Body) (received (output w3))
       = [["A"; "B"; "C"; "D"; "E"; "F"; "G"; "H"; "I"; "J"];
          ["K"; "L"; "M"; "N"; "O"; "P"; "Q"; "R"; "S"; "T"];
          ["U"; "V"; "W"; "X"; "Y"]]
    /\ batch w3 = [].
Proof.
  destruct (scenario_write_25 Example.isCanceled
              (Example.running 10 1 Example.joining Example.accepting)
              (clock.NewRealTicker time.Second) Example.ctx (Example.msgs 25) 0 0 0 0 0 0)
    as (d1 & w1 & d2 & w2 & d3 & w3 & HW & Hq & _ & _ & _ & _ & _ & _ & _ & _ & _ & Hr & _ & Hb & _);
    try reflexivity.
  exists d1, w3. rewrite HW, Hq, Hr, Hb. repeat split.
Defined.

(** C1, as the claim states it, fails: in the scenario the [Write] of 25
    messages puts one batch of 10 onto the output channel, not two. The
    worker hands that one batch to the sink and is then suspended on an empty
    channel, with 15 messages still pending; after the first timer tick 5
    messages are still pending. *)
Lemma scenario_write_25_one_batch_at_once :
  exists d1 w1 d2,
    Write (Example.running 10 1 Example.joining Example.accepting) Example.ctx
      (Example.msgs 25) = Returns (d1, None)
    /\ outputLoop Example.isCanceled d1 Example.ctx [0; 0; 0] = LoopSuspended w1
    /\ received (output w1) = [take 10 (Example.msgs 25)]
    /\ received (output w1)
       <> [take 10 (Example.msgs 25); take 10 (drop 10 (Example.msgs 25))]
    /\ batch w1 = drop 10 (Example.msgs 25)
    /\ tickerLoopTick w1 = Returns d2
    /\ batch d2 = drop 20 (Example.msgs 25)
    /\ batch d2 <> [].
Proof.
  exists (Example.after (Example.running 10 1 Example.joining Example.accepting)
            (Write (Example.running 10 1 Example.joining Example.accepting) Example.ctx
               (Example.msgs 25))).
  exists (Example.worked
            (outputLoop Example.isCanceled
               (Example.after (Example.running 10 1 Example.joining Example.accepting)
                  (Write (Example.running 10 1 Example.joining Example.accepting)
                     Example.ctx (Example.msgs 25)))
               Example.ctx [0; 0; 0])).
  exists (Example.ticked
            (Example.worked
               (outputLoop Example.isCanceled
                  (Example.after (Example.running 10 1 Example.joining Example.accepting)
                     (Write (Example.running 10 1 Example.joining Example.accepting)
                        Example.ctx (Example.msgs 25)))
                  Example.ctx [0; 0; 0]))).
  split; [vm_compute; reflexivity |]. split; [vm_compute; reflexivity |].
  split; [vm_compute; reflexivity |]. split; [vm_compute; discriminate |].
  split; [vm_compute; reflexivity |]. split; [vm_compute; reflexivity |].
  split; [vm_compute; reflexivity |]. vm_compute; discriminate.
Qed.

(** ** The worker *)

(** What [Write] returns is decided by the daemon's name, buffers, ticker,
    marshaller and settings alone: the logger, the metric writer, the output
    channel and the sink have no part in it. *)
Lemma Write_returned_frame (d1 d2 : ProducerDaemon) (ctx1 ctx2 : Context)
    (msgs : list Message) :
  name d1 = name d2 ->
  aggregate d1 = aggregate d2 ->
  batch d1 = batch d2 ->
  ticker d1 = ticker d2 ->
  marshaller d1 = marshaller d2 ->
  settings d1 = settings d2 ->
  returned (Write d1 ctx1 msgs) = returned (Write d2 ctx2 msgs).
Proof.
  destruct d1, d2. cbn. intros; subst.
  unfold Write, applyAggregation, flushAggregate, flushBatch, tickerReset, split_at.
  unfold BuildAggregateMessage, writeMetricMessageCount, writeMetricAggregateSize.
  cbn -[Z.leb Z.ltb Z.eqb len String.append dimensions].
  repeat (case_match; simplify_eq; cbn -[Z.leb Z.ltb Z.eqb len String.append dimensions];
          try done).
Qed.

Lemma outputLoopPass_batch (IsRequestCanceled : error -> bool) (d : ProducerDaemon)
    (ctx : Context) (idleDuration : Z) (ready : list Message) (rest : list (list Message)) :
  queue (outCh d) = ready :: rest ->
  outputLoopPass IsRequestCanceled d ctx idleDuration =
    LoopNext
      (writeMetricIdleDuration
         (writeMetricBatchSize
            (set_logger
               (set_output
                  (set_outCh d (mkOutputChannel (capacity (outCh d)) rest (closed (outCh d))))
                  (mkOutput (answer (output d)) (received (output d) ++ [ready])))
               match answer (output d) ctx ready with
               | Some e =>
                   if IsRequestCanceled e
                   then mon.LoggerWarn (logger d)
                          ("can not write messages to output in producer " +:+ name d
                           +:+ " because of canceled context")
                   else mon.LoggerError (logger d) e
                          ("can not write messages to output in producer " +:+ name d)
               | None => logger d
               end)
            (len ready))
         idleDuration).
Proof.
  intros Hq. unfold outputLoopPass, OutputChannelRead. rewrite Hq. reflexivity.
Qed.

(** C7. When the sink answers a batch with an error, the worker's pass ends
    at the loop head, not with an error: the batch has left the output
    channel and is in neither buffer again, the sink was handed it once, one
    log entry was made, at level warn for a cancellation error and at level
    error (with the error attached) otherwise, warn ranking below error, the
    two metrics were written, the loop goes on with the next measurement,
    and what a later [Write] returns to its caller is what it would have
    returned before the pass. *)
Theorem outputLoopPass_sink_error (IsRequestCanceled : error -> bool) (d : ProducerDaemon)
    (ctx : Context) (idleDuration : Z) (ready : list Message) (rest : list (list Message))
    (err : error) :
  queue (outCh d) = ready :: rest ->
  answer (output d) ctx ready = Some err ->
  exists d',
    outputLoopPass IsRequestCanceled d ctx idleDuration = LoopNext d'
    /\ logger d' =
         logger d ++
           [ if IsRequestCanceled err
             then mon.mkLogEntry mon.Warn
                    ("can not write messages to output in producer " +:+ name d
                     +:+ " because of canceled context") None
             else mon.mkLogEntry mon.Error
                    ("can not write messages to output in producer " +:+ name d) (Some err) ]
    /\ mon.levelPriority mon.Warn < mon.levelPriority mon.Error
    /\ queue (outCh d') = rest
    /\ batch d' = batch d
    /\ aggregate d' = aggregate d
    /\ received (output d') = received (output d) ++ [ready]
    /\ map mon.MetricName (mon.written (metric d')) =
         map mon.MetricName (mon.written (metric d))
           ++ [metricNameBatchSize; metricNameIdleDuration]
    /\ (forall later,
          outputLoop IsRequestCanceled d ctx (idleDuration :: later) =
          outputLoop IsRequestCanceled d' ctx later)
    /\ (forall wctx msgs, returned (Write d' wctx msgs) = returned (Write d wctx msgs)).
Proof.
  intros Hq Hans. eexists. split; [apply (outputLoopPass_batch _ _ _ _ _ _ Hq) |].
  rewrite Hans. fields.
  split; [destruct (IsRequestCanceled err); reflexivity |].
  split; [vm_compute; reflexivity |].
  split; [reflexivity |]. split; [reflexivity |]. split; [reflexivity |].
  split; [reflexivity |].
  split.
  { cbn [mon.written mon.WriteOne]. rewrite !map_app. rewrite <- app_assoc. reflexivity. }
  split.
  { intros later. cbn [outputLoop]. rewrite (outputLoopPass_batch _ _ _ _ _ _ Hq), Hans.
    reflexivity. }
  intros wctx msgs. apply Write_returned_frame; reflexivity.
Qed.

Lemma outputLoopPass_sink_error_witness :
  exists d',
    outputLoopPass Example.isCanceled
      (Example.after (Example.running 2 1 Example.joining Example.rejecting)
         (Write (Example.running 2 1 Example.joining Example.rejecting) Example.ctx
            (Example.msgs 2)))
      Example.ctx 0 = LoopNext d'
    /\ map mon.level (logger d') = ["error"]
    /\ queue (outCh d') = []
    /\ batch d' = []
    /\ received (output d') = [Example.msgs 2].
Proof.
  destruct (outputLoopPass_sink_error Example.isCanceled
              (Example.after (Example.running 2 1 Example.joining Example.rejecting)
                 (Write (Example.running 2 1 Example.joining Example.rejecting) Example.ctx
                    (Example.msgs 2)))
              Example.ctx 0 (Example.msgs 2) [] (ErrLeaf "connection reset"))
    as (d' & HP & Hl & _ & Hq & Hb & _ & Hr & _).
  - reflexivity.
  - reflexivity.
  - exists d'. rewrite HP, Hl, Hq, Hb, Hr. repeat split.
Defined.

(** The order of [Duration.Milliseconds]. *)
Lemma Milliseconds_le (a b : Z) : a <= b -> time.Milliseconds a <= time.Milliseconds b.
Proof. intros H. unfold time.Milliseconds. apply Z.quot_le_mono; [reflexivity | exact H]. Qed.

(** C8. For every batch a worker takes off the output channel, the last
    metric written in that pass is the idle duration: its value is the
    measured duration cut down to the configured interval, in milliseconds,
    and so never above the interval's milliseconds; this holds whatever the
    sink answered. *)
Theorem outputLoopPass_idle_metric (IsRequestCanceled : error -> bool) (d : ProducerDaemon)
    (ctx : Context) (idleDuration : Z) (ready : list Message) (rest : OutputChannel) :
  OutputChannelRead (outCh d) = ReadBatch ready rest ->
  exists d' size idle,
    outputLoopPass IsRequestCanceled d ctx idleDuration = LoopNext d'
    /\ mon.written (metric d') = mon.written (metric d) ++ [size; idle]
    /\ mon.MetricName size = metricNameBatchSize
    /\ mon.Value size = len ready
    /\ mon.MetricName idle = metricNameIdleDuration
    /\ mon.Unit idle = mon.UnitMillisecondsAverage
    /\ mon.Value idle = time.Milliseconds (Z.min idleDuration (Interval (settings d)))
    /\ mon.Value idle <= time.Milliseconds (Interval (settings d)).
Proof.
  intros Hread.
  assert (Hq : queue (outCh d) = ready :: queue rest).
  { unfold OutputChannelRead in Hread. destruct (queue (outCh d)) as [| r q].
    - destruct (closed (outCh d)); discriminate.
    - inversion Hread. reflexivity. }
  eexists. eexists. eexists.
  split; [apply (outputLoopPass_batch _ _ _ _ _ _ Hq) |].
  fields. cbn [mon.written mon.WriteOne].
  split; [rewrite <- app_assoc; reflexivity |].
  cbn [mon.MetricName mon.Value mon.Unit].
  assert (Hmin : (if Interval (settings d) <? idleDuration
                  then Interval (settings d) else idleDuration)
                 = Z.min idleDuration (Interval (settings d))).
  { destruct (Z.ltb_spec (Interval (settings d)) idleDuration); lia. }
  rewrite Hmin. repeat split. apply Milliseconds_le. lia.
Qed.

Lemma outputLoopPass_idle_metric_witness :
  exists d',
    outputLoopPass Example.isCanceled
      (Example.after (Example.running 2 1 Example.joining Example.accepting)
         (Write (Example.running 2 1 Example.joining Example.accepting) Example.ctx
            (Example.msgs 2)))
      Example.ctx (5 * time.Second) = LoopNext d'
    /\ map mon.Value (mon.written (metric d')) = [2; 2; 1000].
Proof.
  destruct (outputLoopPass_idle_metric Example.isCanceled
              (Example.after (Example.running 2 1 Example.joining Example.accepting)
                 (Write (Example.running 2 1 Example.joining Example.accepting) Example.ctx
                    (Example.msgs 2)))
              Example.ctx (5 * time.Second) (Example.msgs 2)
              (mkOutputChannel 10 [] false))
    as (d' & size & idle & HP & Hw & _ & Hs & _ & _ & Hv & _).
  - reflexivity.
  - exists d'. rewrite HP, Hw, map_app. cbn [map]. rewrite Hs, Hv. repeat split.
Defined.

(** ** The registry *)

(** The constructor allocates at most one daemon, at the end of the heap, and
    returns its address exactly when it returns no error. *)
Lemma NewProducerDaemon_allocates {Config : Type}
    (readProducerSettings : Config -> string -> ProducerSettings.t)
    (NewConfigurableOutput : Config -> mon.Logger -> string -> result Output)
    (MarshalJsonMessage : AggregateMarshaller)
    (config : Config) (logger : mon.Logger) (key : string)
    (heap heap' : list ProducerDaemon) (p : ptr) (err : option error) :
  NewProducerDaemon Config readProducerSettings NewConfigurableOutput MarshalJsonMessage
    config logger key heap = Returns (heap', (p, err)) ->
  (err = None /\ p = Some (length heap) /\ exists d, heap' = heap ++ [d] /\ name d = key)
  \/ (is_Some err /\ p = None /\ heap' = heap).
Proof.
  unfold NewProducerDaemon. intros H.
  destruct (NewConfigurableOutput _ _ _) as [out | e].
  - unfold make_slice in H. destruct (_ <? 0); [discriminate |].
    cbn [mbind outcome_bind] in H. inversion H; subst. left.
    split; [reflexivity |]. split; [reflexivity |]. eexists. split; reflexivity.
  - inversion H; subst. right. split; [eexists; reflexivity |]. split; reflexivity.
Qed.

(** C9. [ProvideProducerDaemon] looks the name up before it constructs.
    Once a call has returned an instance for a name without error, every
    later call for that name, whatever its configuration, logger and
    constructor parts, returns the same instance and leaves the registry and
    the heap as they are. A call allocates a daemon only if the name was not
    registered: with the name registered the package is unchanged, and
    otherwise the heap grows by the one daemon of that name, whose address
    is returned. *)
Theorem ProvideProducerDaemon_idempotent {Config Config' : Type}
    (readProducerSettings : Config -> string -> ProducerSettings.t)
    (NewConfigurableOutput : Config -> mon.Logger -> string -> result Output)
    (MarshalJsonMessage : AggregateMarshaller)
    (readProducerSettings' : Config' -> string -> ProducerSettings.t)
    (NewConfigurableOutput' : Config' -> mon.Logger -> string -> result Output)
    (MarshalJsonMessage' : AggregateMarshaller)
    (config : Config) (config' : Config') (logger logger' : mon.Logger) (key : string)
    (pkg pkg1 : Package) (p : ptr) :
  ProvideProducerDaemon Config readProducerSettings NewConfigurableOutput MarshalJsonMessage
    config logger key pkg = Returns (pkg1, (p, None)) ->
  ProvideProducerDaemon Config' readProducerSettings' NewConfigurableOutput'
    MarshalJsonMessage' config' logger' key pkg1 = Returns (pkg1, (p, None))
  /\ producerDaemons pkg1 !! key = Some p
  /\ (is_Some (producerDaemons pkg !! key) -> pkg1 = pkg)
  /\ (producerDaemons pkg !! key = None ->
        p = Some (length (heap pkg))
        /\ exists d, heap pkg1 = heap pkg ++ [d] /\ name d = key).
Proof.
  unfold ProvideProducerDaemon. intros H.
  destruct (producerDaemons pkg !! key) as [p0 |] eqn:Hlook.
  - inversion H; subst. rewrite Hlook.
    split; [reflexivity |]. split; [reflexivity |]. split; [reflexivity |]. discriminate.
  - destruct (NewProducerDaemon _ _ _ _ config logger key (heap pkg))
      as [[heap' [p' err]] |] eqn:HN; [| discriminate].
    cbn [mbind outcome_bind] in H.
    apply NewProducerDaemon_allocates in HN.
    destruct HN as [(-> & -> & d & -> & Hd) | ([e ->] & _ & _)]; [| discriminate].
    cbn [producerDaemons] in H. rewrite lookup_insert_eq in H. cbn [default] in H.
    inversion H; subst. cbn [producerDaemons heap]. rewrite lookup_insert_eq.
    split; [reflexivity |]. split; [reflexivity |].
    split; [intros [? ?]; discriminate |].
    intros _. split; [reflexivity |]. exists d. split; reflexivity.
Qed.

Lemma ProvideProducerDaemon_idempotent_witness :
  ProvideProducerDaemon unit Example.readSettings Example.noOutput Example.failing
    tt [] "orders"
    (Example.registered
       (ProvideProducerDaemon unit Example.readSettings Example.newOutput Example.joining
          tt [] "orders" Example.emptyPackage))
  = Returns (Example.registered
               (ProvideProducerDaemon unit Example.readSettings Example.newOutput
                  Example.joining tt [] "orders" Example.emptyPackage),
             (Some 0%nat, None)).
Proof.
  destruct (ProvideProducerDaemon_idempotent
              Example.readSettings Example.newOutput Example.joining
              Example.readSettings Example.noOutput Example.failing
              tt tt [] [] "orders" Example.emptyPackage
              (Example.registered
                 (ProvideProducerDaemon unit Example.readSettings Example.newOutput
                    Example.joining tt [] "orders" Example.emptyPackage))
              (Some 0%nat))
    as [H _].
  - vm_compute. reflexivity.
  - exact H.
Defined.

(** ** Writing one message *)

(** C10. [WriteOne] with a message is [Write] with the one-element batch of
    that message: the same daemon afterwards, the same error, and a panic in
    the same cases. *)
Theorem WriteOne_is_Write (d : ProducerDaemon) (ctx : Context) (msg : Message) :
  WriteOne d ctx msg = Write d ctx [msg]
  /\ returned (WriteOne d ctx msg) = returned (Write d ctx [msg]).
Proof. split; reflexivity. Qed.

(** ** Further facts *)

(** A forced flush with nothing pending changes nothing and pushes nothing:
    a second forced flush right after one that emptied both buffers adds no
    output. *)
Theorem flushAll_nothing_pending (d : ProducerDaemon) :
  aggregate d = [] ->
  batch d = [] ->
  flushAll d = Returns (d, None).
Proof.
  destruct d. cbn [aggregate batch]. intros -> ->. reflexivity.
Qed.

Lemma flushAll_nothing_pending_witness :
  flushAll (Example.running 10 3 Example.joining Example.accepting)
  = Returns (Example.running 10 3 Example.joining Example.accepting, None).
Proof.
  apply flushAll_nothing_pending; reflexivity.
Defined.

(** A call of [ProvideProducerDaemon] whose constructor fails returns the
    wrapped error and no daemon, and leaves nil registered under the name:
    every later call for that name returns nil without an error and
    constructs nothing. *)
Theorem ProvideProducerDaemon_after_failure {Config Config' : Type}
    (readProducerSettings : Config -> string -> ProducerSettings.t)
    (NewConfigurableOutput : Config -> mon.Logger -> string -> result Output)
    (MarshalJsonMessage : AggregateMarshaller)
    (readProducerSettings' : Config' -> string -> ProducerSettings.t)
    (NewConfigurableOutput' : Config' -> mon.Logger -> string -> result Output)
    (MarshalJsonMessage' : AggregateMarshaller)
    (config : Config) (config' : Config') (logger logger' : mon.Logger) (key : string)
    (pkg : Package) (err : error) :
  producerDaemons pkg !! key = None ->
  NewConfigurableOutput config logger
    (ProducerSettings.Output (readProducerSettings config key)) = Err err ->
  exists pkg1,
    ProvideProducerDaemon Config readProducerSettings NewConfigurableOutput
      MarshalJsonMessage config logger key pkg
    = Returns (pkg1, (None,
        Some (ErrWrap ("can not create output for producer daemon " +:+ key) err)))
    /\ producerDaemons pkg1 !! key = Some None
    /\ heap pkg1 = heap pkg
    /\ ProvideProducerDaemon Config' readProducerSettings' NewConfigurableOutput'
         MarshalJsonMessage' config' logger' key pkg1
       = Returns (pkg1, (None, None)).
Proof.
  intros Hlook Hout. unfold ProvideProducerDaemon, NewProducerDaemon.
  rewrite Hlook, Hout. cbn [mbind outcome_bind].
  eexists. split; [reflexivity |].
  cbn [producerDaemons heap]. rewrite !lookup_insert_eq. repeat split.
Qed.

Lemma ProvideProducerDaemon_after_failure_witness :
  exists pkg1,
    ProvideProducerDaemon unit Example.readSettings Example.noOutput Example.joining
      tt [] "orders" Example.emptyPackage
    = Returns (pkg1, (None,
        Some (ErrWrap "can not create output for producer daemon orders"
                (ErrLeaf "unknown output type"))))
    /\ ProvideProducerDaemon unit Example.readSettings Example.newOutput Example.joining
         tt [] "orders" pkg1
       = Returns (pkg1, (None, None)).
Proof.
  destruct (ProvideProducerDaemon_after_failure
              Example.readSettings Example.noOutput Example.joining
              Example.readSettings Example.newOutput Example.joining
              tt tt [] [] "orders" Example.emptyPackage (ErrLeaf "unknown output type"))
    as (pkg1 & H1 & _ & _ & H2).
  - reflexivity.
  - reflexivity.
  - exists pkg1. split; [exact H1 | exact H2].
Defined.

(** ** What every flush keeps *)

Lemma configured_as_refl (d : ProducerDaemon) : configured_as d d.
Proof. repeat split. Qed.

Lemma configured_as_trans (d1 d2 d3 : ProducerDaemon) :
  configured_as d1 d2 -> configured_as d2 d3 -> configured_as d1 d3.
Proof.
  unfold configured_as. intros (? & ? & ? & ? & ? & ?) (? & ? & ? & ? & ? & ?).
  repeat split; congruence.
Qed.

(** [flushBatch] field by field. *)
Lemma flushBatch_fields (d : ProducerDaemon) :
  0 <= BatchSize (settings d) ->
  exists d',
    flushBatch d = Returns d'
    /\ batch d' = drop (Z.to_nat (BatchSize (settings d))) (batch d)
    /\ outCh d' =
         (if decide (batch d = []) then outCh d
          else OutputChannelWrite (outCh d) (take (Z.to_nat (BatchSize (settings d))) (batch d)))
    /\ aggregate d' = aggregate d
    /\ ticker d' = ticker d
    /\ metric d' = metric d
    /\ configured_as d d'.
Proof.
  intros HB. destruct (decide (batch d = [])) as [Hnil | Hne].
  - exists d. rewrite flushBatch_empty by exact Hnil. rewrite Hnil, drop_nil.
    repeat split.
  - eexists. split; [apply (flushBatch_nonempty d Hne HB) |].
    fields. rewrite take_min_len, drop_min_len. repeat split.
Qed.

(** [flushAggregate] field by field. *)
Lemma flushAggregate_fields (d : ProducerDaemon) :
  0 <= AggregationSize (settings d) ->
  exists d' r,
    flushAggregate d = Returns (d', r)
    /\ aggregate d' = drop (Z.to_nat (AggregationSize (settings d))) (aggregate d)
    /\ r =
         (if decide (aggregate d = []) then Ok []
          else
            match BuildAggregateMessage (marshaller d)
                    (take (Z.to_nat (AggregationSize (settings d))) (aggregate d))
                    [MessageAttributes (settings d)] with
            | Ok aggregateMessage => Ok [aggregateMessage]
            | Err err => Err (ErrWrap "can not marshal aggregate" err)
            end)
    /\ batch d' = batch d
    /\ outCh d' = outCh d
    /\ ticker d' = ticker d
    /\ configured_as d d'.
Proof.
  intros HA. destruct (decide (aggregate d = [])) as [Hnil | Hne].
  - exists d, (Ok []). rewrite flushAggregate_empty by exact Hnil.
    rewrite Hnil, drop_nil. repeat split.
  - rewrite (flushAggregate_nonempty d Hne HA). rewrite take_min_len, drop_min_len.
    destruct (BuildAggregateMessage _ _ _) as [am | e];
      eexists; eexists; (split; [reflexivity |]); fields; repeat split.
Qed.

(** [flushAll] field by field: the error is the marshaller's, wrapped twice,
    and then nothing was appended or pushed. *)
Lemma flushAll_fields (d : ProducerDaemon) :
  0 <= AggregationSize (settings d) ->
  0 <= BatchSize (settings d) ->
  exists d' err,
    flushAll d = Returns (d', err)
    /\ aggregate d' = drop (Z.to_nat (AggregationSize (settings d))) (aggregate d)
    /\ ticker d' = ticker d
    /\ configured_as d d'
    /\ match err with
       | Some e =>
           exists cause,
             BuildAggregateMessage (marshaller d)
               (take (Z.to_nat (AggregationSize (settings d))) (aggregate d))
               [MessageAttributes (settings d)] = Err cause
             /\ aggregate d <> []
             /\ e = ErrWrap "can not flush aggregation"
                      (ErrWrap "can not marshal aggregate" cause)
             /\ batch d' = batch d
             /\ outCh d' = outCh d
       | None =>
           exists carrier,
             folded d carrier
             /\ batch d' = drop (Z.to_nat (BatchSize (settings d))) (batch d ++ carrier)
             /\ outCh d' =
                  (if decide (batch d ++ carrier = []) then outCh d
                   else OutputChannelWrite (outCh d)
                          (take (Z.to_nat (BatchSize (settings d))) (batch d ++ carrier)))
       end.
Proof.
  intros HA HB. unfold flushAll.
  destruct (flushAggregate_fields d HA) as (d1 & r & -> & Hagg & Hr & Hbat & Hch & Htk & Hcf).
  cbn [mbind outcome_bind].
  assert (Hset1 : settings d1 = settings d) by apply Hcf.
  destruct r as [carrier | e].
  - set (d2 := set_batch d1 (batch d1 ++ carrier)).
    destruct (flushBatch_fields d2) as (d3 & -> & Hb3 & Hc3 & Ha3 & Ht3 & _ & Hcf3).
    { unfold d2. fields. rewrite Hset1. exact HB. }
    cbn [mbind outcome_bind]. exists d3, None. split; [reflexivity |].
    unfold d2 in *. fields in Hb3. fields in Hc3. fields in Ha3. fields in Ht3.
    rewrite Hset1, Hbat in Hb3. rewrite Hset1, Hbat, Hch in Hc3.
    split; [congruence |]. split; [congruence |].
    split.
    { eapply configured_as_trans; [exact Hcf |].
      destruct Hcf3 as (? & ? & ? & ? & ? & ?). repeat split; assumption. }
    exists carrier. split; [| split; assumption].
    unfold folded. destruct (aggregate d) as [| m rest].
    + destruct (decide _) as [_ | Hc]; [| contradiction]. congruence.
    + destruct (decide _) as [Hc | _]; [discriminate |].
      destruct (BuildAggregateMessage _ _ _) as [am | e]; [| discriminate].
      exists am. split; [reflexivity | congruence].
  - exists d1, (Some (ErrWrap "can not flush aggregation" e)). split; [reflexivity |].
    split; [exact Hagg |]. split; [exact Htk |]. split; [exact Hcf |].
    destruct (decide (aggregate d = [])) as [Hnil | Hne]; [discriminate |].
    destruct (BuildAggregateMessage _ _ _) as [am | cause] eqn:HB'; [discriminate |].
    exists cause. inversion Hr; subst e. repeat split; assumption.
Qed.

(** [applyAggregation] field by field. *)
Lemma applyAggregation_fields (d : ProducerDaemon) (msgs : list Message) :
  exists d' r,
    applyAggregation d msgs = Returns (d', r)
    /\ batch d' = batch d
    /\ outCh d' = outCh d
    /\ ticker d' = ticker d
    /\ configured_as d d'
    /\ match r with
       | Ok carrier => aggregates d msgs carrier (aggregate d')
       | Err e =>
           1 < AggregationSize (settings d)
           /\ AggregationSize (settings d) <= len (aggregate d ++ msgs)
           /\ aggregate d' =
                drop (Z.to_nat (AggregationSize (settings d))) (aggregate d ++ msgs)
           /\ exists cause,
                BuildAggregateMessage (marshaller d)
                  (take (Z.to_nat (AggregationSize (settings d))) (aggregate d ++ msgs))
                  [MessageAttributes (settings d)] = Err cause
                /\ e = ErrWrap "can not marshal aggregate" cause
       end.
Proof.
  unfold applyAggregation, aggregates.
  destruct (Z.leb_spec (AggregationSize (settings d)) 1) as [Hoff | Hon].
  - exists d, (Ok msgs). repeat split.
  - fields.
    destruct (Z.ltb_spec (len (aggregate d ++ msgs)) (AggregationSize (settings d)))
      as [Hshort | Hfull].
    + eexists. exists (Ok []). split; [reflexivity |]. fields. repeat split.
    + destruct (flushAggregate_fields (set_aggregate d (aggregate d ++ msgs)))
        as (d' & r & -> & Hagg & Hr & Hbat & Hch & Htk & Hcf).
      { fields. lia. }
      fields in Hagg. fields in Hr. fields in Hbat. fields in Hch. fields in Htk.
      exists d', r. split; [reflexivity |].
      split; [exact Hbat |]. split; [exact Hch |]. split; [exact Htk |].
      split; [destruct Hcf as (? & ? & ? & ? & ? & ?); repeat split; assumption |].
      destruct (decide (aggregate d ++ msgs = [])) as [Hnil | _].
      { rewrite Hnil, len_nil in Hfull. lia. }
      destruct (BuildAggregateMessage _ _ _) as [am | cause]; subst r.
      * exists am. repeat split. exact Hagg.
      * split; [exact Hon |]. split; [exact Hfull |]. split; [exact Hagg |].
        exists cause. split; reflexivity.
Qed.

(** [Write] field by field, on a daemon that runs. *)
Lemma Write_fields (d : ProducerDaemon) (ctx : Context) (msgs : list Message)
    (t : clock.Ticker) :
  ticker d = Some t ->
  0 <= BatchSize (settings d) ->
  exists d' err,
    Write d ctx msgs = Returns (d', err)
    /\ configured_as d d'
    /\ match err with
       | Some e =>
           batch d' = batch d /\ outCh d' = outCh d /\ ticker d' = Some t
           /\ 1 < AggregationSize (settings d)
           /\ exists cause,
                e = ErrWrap ("can not apply aggregation in producer " +:+ name d)
                      (ErrWrap "can not marshal aggregate" cause)
       | None =>
           exists carrier,
             aggregates d msgs carrier (aggregate d')
             /\ if len (batch d ++ carrier) <? BatchSize (settings d)
                then batch d' = batch d ++ carrier
                     /\ outCh d' = outCh d
                     /\ ticker d' = Some t
                else batch d' = drop (Z.to_nat (BatchSize (settings d))) (batch d ++ carrier)
                     /\ outCh d' =
                          (if decide (batch d ++ carrier = []) then outCh d
                           else OutputChannelWrite (outCh d)
                                  (take (Z.to_nat (BatchSize (settings d)))
                                     (batch d ++ carrier)))
                     /\ ticker d' = Some (clock.Reset t)
       end.
Proof.
  intros Ht HB. unfold Write.
  destruct (applyAggregation_fields (writeMetricMessageCount d (len msgs)) msgs)
    as (d1 & r & -> & Hbat & Hch & Htk & Hcf & Hr).
  fields in Hbat. fields in Hch. fields in Htk.
  assert (Hcf1 : configured_as d d1).
  { destruct Hcf as (? & ? & ? & ? & ? & ?). repeat split; assumption. }
  destruct Hcf1 as (Hn1 & Hs1 & Hm1 & Hf1 & Ho1 & Hl1).
  cbn [mbind outcome_bind].
  destruct r as [carrier | e].
  - unfold aggregates in Hr. fields in Hr. fold (aggregates d msgs carrier (aggregate d1)) in Hr.
    fields. rewrite Hs1, Hbat.
    destruct (Z.ltb_spec (len (batch d ++ carrier)) (BatchSize (settings d))) as [Hlow | Hhigh].
    + eexists. exists None. split; [reflexivity |]. fields.
      split; [repeat split; assumption |].
      exists carrier. split; [exact Hr |].
      destruct (Z.ltb_spec (len (batch d ++ carrier)) (BatchSize (settings d))); [| lia].
      rewrite Hch, Htk, Ht. repeat split.
    + unfold tickerReset. fields. rewrite Htk, Ht. cbn [mbind outcome_bind].
      match goal with |- context [flushBatch ?x] => set (d2 := x) end.
      destruct (flushBatch_fields d2) as (d3 & -> & Hb3 & Hc3 & Ha3 & Ht3 & _ & Hcf3).
      { unfold d2. fields. rewrite Hs1. exact HB. }
      cbn [mbind outcome_bind]. exists d3, None. split; [reflexivity |].
      unfold d2 in *. fields in Hb3. fields in Hc3. fields in Ha3. fields in Ht3.
      rewrite Hs1 in Hb3. rewrite Hs1, Hch in Hc3.
      destruct Hcf3 as (Hn3 & Hs3 & Hm3 & Hf3 & Ho3 & Hl3).
      fields in Hn3. fields in Hs3. fields in Hm3. fields in Hf3. fields in Ho3.
      fields in Hl3.
      split; [repeat split; congruence |].
      exists carrier. rewrite Ha3. split; [exact Hr |].
      destruct (Z.ltb_spec (len (batch d ++ carrier)) (BatchSize (settings d))); [lia |].
      repeat split; assumption.
  - destruct Hr as (Hon & _ & _ & cause & _ & ->). fields in Hon.
    eexists. eexists. split; [reflexivity |].
    split; [repeat split; assumption |].
    rewrite Hbat, Hch, Htk, Ht, Hn1. repeat split; [exact Hon |]. exists cause. reflexivity.
Qed.

(** ** One write, one batch *)

(** What a push does to the queue of an open or a closed channel. *)
Lemma OutputChannelWrite_queue (c : OutputChannel) (ready : list Message) :
  queue (OutputChannelWrite c ready) = queue c ++ (if closed c then [] else [ready])
  /\ closed (OutputChannelWrite c ready) = closed c
  /\ capacity (OutputChannelWrite c ready) = capacity c.
Proof.
  unfold OutputChannelWrite. destruct (closed c) eqn:Hc.
  - rewrite app_nil_r. auto.
  - cbn. auto.
Qed.

(** A successful [Write] on a running daemon with an open output channel and
    a batch size of at least one does one of two things. Either the pending
    batch buffer stays below the batch size, nothing is pushed and the ticker
    is not touched; or exactly one batch is pushed, it holds exactly
    [BatchSize] messages, the ones at the front of the buffer, and the ticker
    is reset once. In both cases no carrier message is lost or reordered. *)
Theorem Write_pushes_one_full_batch (d d' : ProducerDaemon) (ctx : Context)
    (msgs : list Message) (t : clock.Ticker) :
  ticker d = Some t ->
  1 <= BatchSize (settings d) ->
  closed (outCh d) = false ->
  Write d ctx msgs = Returns (d', None) ->
  exists carrier,
    aggregates d msgs carrier (aggregate d')
    /\ ((ticker d' = Some t
         /\ queue (outCh d') = queue (outCh d)
         /\ batch d' = batch d ++ carrier
         /\ len (batch d') < BatchSize (settings d))
        \/
        (ticker d' = Some (clock.Reset t)
         /\ exists ready,
              queue (outCh d') = queue (outCh d) ++ [ready]
              /\ len ready = BatchSize (settings d)
              /\ ready ++ batch d' = batch d ++ carrier)).
Proof.
  intros Ht HB Hopen HW.
  destruct (Write_fields d ctx msgs t Ht) as (d1 & err & HW1 & _ & Hspec); [lia |].
  rewrite HW in HW1. inversion HW1; subst d1 err. clear HW1.
  destruct Hspec as (carrier & Hagg & Hrest). exists carrier. split; [exact Hagg |].
  destruct (Z.ltb_spec (len (batch d ++ carrier)) (BatchSize (settings d))) as [Hlow | Hhigh].
  - left. destruct Hrest as (Hb & Hc & Htk). rewrite Hb, Hc. auto.
  - right. destruct Hrest as (Hb & Hc & Htk). split; [exact Htk |].
    destruct (decide (batch d ++ carrier = [])) as [Hnil | _].
    { rewrite Hnil, len_nil in Hhigh. lia. }
    eexists. rewrite Hc. split.
    { destruct (OutputChannelWrite_queue (outCh d)
                  (take (Z.to_nat (BatchSize (settings d))) (batch d ++ carrier)))
        as (Hq & _). rewrite Hq, Hopen. reflexivity. }
    split; [rewrite len_take by lia; lia |].
    rewrite Hb. apply take_drop.
Qed.

Lemma Write_pushes_one_full_batch_witness :
  exists ready,
    queue (outCh (Example.after (Example.running 2 1 Example.joining Example.accepting)
                    (Write (Example.running 2 1 Example.joining Example.accepting)
                       Example.ctx (Example.msgs 5))))
    = [ready]
    /\ len ready = 2.
Proof.
  destruct (Write_pushes_one_full_batch
              (Example.running 2 1 Example.joining Example.accepting)
              (Example.after (Example.running 2 1 Example.joining Example.accepting)
                 (Write (Example.running 2 1 Example.joining Example.accepting)
                    Example.ctx (Example.msgs 5)))
              Example.ctx (Example.msgs 5) (clock.NewRealTicker time.Second))
    as (carrier & _ & [(Htk & _) | (_ & ready & Hq & Hl & _)]).
  - reflexivity.
  - vm_compute. discriminate.
  - reflexivity.
  - vm_compute. reflexivity.
  - vm_compute in Htk. discriminate Htk.
  - exists ready. split; [exact Hq | exact Hl].
Defined.

(** ** A series of writes *)

(** With aggregation off, any series of [Write] calls on a running daemon
    with an open output channel succeeds and loses, duplicates or reorders
    nothing: the batches pushed, in order, followed by the pending batch
    buffer are exactly what was pending before followed by the messages of
    the calls in order. Every batch pushed holds exactly [BatchSize]
    messages, and no call pushes more than one. *)
Theorem WriteEach_partitions (ctx : Context) (calls : list (list Message)) :
  forall (d : ProducerDaemon) (t : clock.Ticker),
  ticker d = Some t ->
  AggregationSize (settings d) <= 1 ->
  0 <= BatchSize (settings d) ->
  closed (outCh d) = false ->
  exists d' pushed,
    WriteEach d ctx calls = Returns (d', None)
    /\ queue (outCh d') = queue (outCh d) ++ pushed
    /\ Forall (fun ready => len ready = BatchSize (settings d)) pushed
    /\ (length pushed <= length calls)%nat
    /\ concat pushed ++ batch d' = batch d ++ concat calls
    /\ aggregate d' = aggregate d.
Proof.
  induction calls as [| msgs later IH]; intros d t Ht HA HB Hopen.
  - exists d, []. cbn. rewrite !app_nil_r. repeat split; constructor.
  - cbn [WriteEach].
    destruct (Write_fields d ctx msgs t Ht HB) as (d1 & err & -> & Hcf & Hspec).
    cbn [mbind outcome_bind].
    destruct err as [e |]; [destruct Hspec as (_ & _ & _ & Hon & _); lia |].
    destruct Hspec as (carrier & Hagg & Hrest).
    unfold aggregates in Hagg.
    destruct (Z.leb_spec (AggregationSize (settings d)) 1); [| lia].
    destruct Hagg as (-> & Hagg1).
    assert (Hs1 : settings d1 = settings d) by apply Hcf.
    assert (Hstep : exists t1 step,
              ticker d1 = Some t1
              /\ closed (outCh d1) = false
              /\ queue (outCh d1) = queue (outCh d) ++ step
              /\ Forall (fun ready => len ready = BatchSize (settings d)) step
              /\ (length step <= 1)%nat
              /\ concat step ++ batch d1 = batch d ++ msgs).
    { destruct (Z.ltb_spec (len (batch d ++ msgs)) (BatchSize (settings d))) as [Hlow | Hhigh];
        destruct Hrest as (Hb & Hc & Htk).
      - exists t, []. rewrite Hc, Hb, app_nil_r. repeat split; auto.
      - destruct (decide (batch d ++ msgs = [])) as [Hnil | Hne].
        + exists (clock.Reset t), []. rewrite Hc, Hb, Hnil, drop_nil, app_nil_r.
          repeat split; auto.
        + exists (clock.Reset t), [take (Z.to_nat (BatchSize (settings d))) (batch d ++ msgs)].
          destruct (OutputChannelWrite_queue (outCh d)
                      (take (Z.to_nat (BatchSize (settings d))) (batch d ++ msgs)))
            as (Hq & Hcl & _).
          rewrite Hc, Hq, Hcl, Hopen, Hb. cbn [concat]. rewrite app_nil_r, take_drop.
          repeat split; auto.
          constructor; [| constructor]. rewrite len_take by lia. lia. }
    destruct Hstep as (t1 & step & Ht1 & Hopen1 & Hq1 & Hsz1 & Hlen1 & Hcat1).
    destruct (IH d1 t1 Ht1) as (d' & pushed & -> & Hq & Hsz & Hlen & Hcat & Hagg');
      [rewrite Hs1; lia | rewrite Hs1; lia | exact Hopen1 |].
    exists d', (step ++ pushed). split; [reflexivity |].
    split; [rewrite Hq, Hq1, app_assoc; reflexivity |].
    split; [apply Forall_app; split; [exact Hsz1 | rewrite Hs1 in Hsz; exact Hsz] |].
    split; [rewrite length_app; cbn [length]; lia |].
    split; [| congruence].
    rewrite concat_app, <- app_assoc, Hcat, app_assoc, Hcat1, <- app_assoc. reflexivity.
Qed.

Lemma WriteEach_partitions_witness :
  exists d' pushed,
    WriteEach (Example.running 2 1 Example.joining Example.accepting) Example.ctx
      [Example.msgs 3; []; [Example.msg 3; Example.msg 4; Example.msg 5; Example.msg 6]]
    = Returns (d', None)
    /\ queue (outCh d') = pushed
    /\ Forall (fun ready => len ready = 2) pushed
    /\ concat pushed ++ batch d' = Example.msgs 7.
Proof.
  destruct (WriteEach_partitions Example.ctx
              [Example.msgs 3; []; [Example.msg 3; Example.msg 4; Example.msg 5; Example.msg 6]]
              (Example.running 2 1 Example.joining Example.accepting)
              (clock.NewRealTicker time.Second))
    as (d' & pushed & HW & Hq & Hsz & _ & Hcat & _).
  - reflexivity.
  - vm_compute. discriminate.
  - vm_compute. discriminate.
  - reflexivity.
  - exists d', pushed. split; [exact HW |]. split; [exact Hq |].
    split; [exact Hsz | exact Hcat].
Defined.

(** ** The size of what is queued *)

Lemma well_sized_push (d d' : ProducerDaemon) (ready : list Message) :
  well_sized d ->
  settings d' = settings d ->
  1 <= len ready <= BatchSize (settings d) ->
  outCh d' = OutputChannelWrite (outCh d) ready ->
  well_sized d'.
Proof.
  unfold well_sized. intros Hws Hs Hlen Hc. rewrite Hs, Hc.
  destruct (OutputChannelWrite_queue (outCh d) ready) as (-> & _).
  apply Forall_app. split; [exact Hws |].
  destruct (closed (outCh d)); repeat constructor; lia.
Qed.

Lemma well_sized_keep (d d' : ProducerDaemon) :
  well_sized d -> settings d' = settings d -> outCh d' = outCh d -> well_sized d'.
Proof. unfold well_sized. intros Hws -> ->. exact Hws. Qed.

Lemma well_sized_flushAll (d d' : ProducerDaemon) (err : option error) :
  0 <= AggregationSize (settings d) ->
  1 <= BatchSize (settings d) ->
  well_sized d ->
  flushAll d = Returns (d', err) ->
  well_sized d' /\ settings d' = settings d.
Proof.
  intros HA HB Hws HF.
  destruct (flushAll_fields d HA) as (d1 & err1 & HF1 & _ & _ & Hcf & Hspec); [lia |].
  rewrite HF in HF1. inversion HF1; subst d1 err1. clear HF1.
  assert (Hs : settings d' = settings d) by apply Hcf.
  split; [| exact Hs].
  destruct err as [e |].
  - destruct Hspec as (cause & _ & _ & _ & _ & Hc). eapply well_sized_keep; eassumption.
  - destruct Hspec as (carrier & _ & _ & Hc).
    destruct (decide (batch d ++ carrier = [])) as [Hnil | Hne].
    + eapply well_sized_keep; eassumption.
    + eapply well_sized_push; [exact Hws | exact Hs | | exact Hc].
      rewrite len_take by lia.
      assert (0 < len (batch d ++ carrier)).
      { destruct (batch d ++ carrier); [contradiction | unfold len; cbn; lia]. }
      lia.
Qed.

(** With a batch size of at least one, the daemon never queues an empty
    batch and never one above the batch size: if every queued batch holds
    between one and [BatchSize] messages, the same is true after a [Write]
    (failed or not), after a timer tick and after [close]. *)
Theorem well_sized_kept (d d' : ProducerDaemon) (ctx : Context) (msgs : list Message)
    (t : clock.Ticker) (err : option error) :
  ticker d = Some t ->
  0 <= AggregationSize (settings d) ->
  1 <= BatchSize (settings d) ->
  well_sized d ->
  (Write d ctx msgs = Returns (d', err) -> well_sized d')
  /\ (tickerLoopTick d = Returns d' -> well_sized d')
  /\ (close d = Returns (d', err) -> well_sized d').
Proof.
  intros Ht HA HB Hws. split; [| split].
  - intros HW.
    destruct (Write_fields d ctx msgs t Ht) as (d1 & err1 & HW1 & Hcf & Hspec); [lia |].
    rewrite HW in HW1. inversion HW1; subst d1 err1. clear HW1.
    assert (Hs : settings d' = settings d) by apply Hcf.
    destruct err as [e |].
    + destruct Hspec as (_ & Hc & _). eapply well_sized_keep; eassumption.
    + destruct Hspec as (carrier & _ & Hrest).
      destruct (Z.ltb_spec (len (batch d ++ carrier)) (BatchSize (settings d)));
        destruct Hrest as (_ & Hc & _).
      * eapply well_sized_keep; eassumption.
      * destruct (decide (batch d ++ carrier = [])) as [Hnil | Hne].
        -- eapply well_sized_keep; eassumption.
        -- eapply well_sized_push; [exact Hws | exact Hs | | exact Hc].
           rewrite len_take by lia. lia.
  - unfold tickerLoopTick. intros HT.
    destruct (flushAll d) as [[d1 e1] |] eqn:HF; [| discriminate].
    cbn [mbind outcome_bind] in HT.
    destruct (well_sized_flushAll d d1 e1 HA HB Hws HF) as (Hws1 & Hs1).
    destruct e1; inversion HT; subst d'; [| exact Hws1].
    eapply well_sized_keep; [exact Hws1 | reflexivity | reflexivity].
  - unfold close. intros HC.
    destruct (flushAll d) as [[d1 e1] |] eqn:HF; [| discriminate].
    cbn [mbind outcome_bind] in HC.
    destruct (well_sized_flushAll d d1 e1 HA HB Hws HF) as (Hws1 & Hs1).
    assert (Hws2 : well_sized (set_outCh d1 (OutputChannelClose (outCh d1)))).
    { unfold well_sized in *. exact Hws1. }
    destruct e1; inversion HC; subst d'; exact Hws2.
Qed.

Lemma well_sized_kept_witness :
  well_sized (Example.after (Example.running 2 1 Example.joining Example.accepting)
                (Write (Example.running 2 1 Example.joining Example.accepting)
                   Example.ctx (Example.msgs 5))).
Proof.
  destruct (well_sized_kept
              (Example.running 2 1 Example.joining Example.accepting)
              (Example.after (Example.running 2 1 Example.joining Example.accepting)
                 (Write (Example.running 2 1 Example.joining Example.accepting)
                    Example.ctx (Example.msgs 5)))
              Example.ctx (Example.msgs 5) (clock.NewRealTicker time.Second) None)
    as (H & _).
  - reflexivity.
  - vm_compute. discriminate.
  - vm_compute. discriminate.
  - constructor.
  - apply H. vm_compute. reflexivity.
Defined.

(** ** A tick whose fold fails *)

(** When the marshaller fails on a timer tick, the tick logs one error, the
    marshaller's wrapped twice, under "can not flush all messages", and goes
    on: the messages it took off the aggregate buffer are gone, and the
    pending batch buffer is neither changed nor pushed on this tick. *)
Theorem tickerLoopTick_fold_failure (d : ProducerDaemon) (cause : error) :
  aggregate d <> [] ->
  0 <= AggregationSize (settings d) ->
  BuildAggregateMessage (marshaller d)
    (take (Z.to_nat (AggregationSize (settings d))) (aggregate d))
    [MessageAttributes (settings d)] = Err cause ->
  exists d',
    tickerLoopTick d = Returns d'
    /\ logger d' =
         logger d ++
           [mon.mkLogEntry mon.Error "can not flush all messages"
              (Some (ErrWrap "can not flush aggregation"
                       (ErrWrap "can not marshal aggregate" cause)))]
    /\ aggregate d' = drop (Z.to_nat (AggregationSize (settings d))) (aggregate d)
    /\ batch d' = batch d
    /\ outCh d' = outCh d
    /\ ticker d' = ticker d.
Proof.
  intros Hne HA Hfold. unfold tickerLoopTick, flushAll.
  rewrite (flushAggregate_nonempty d Hne HA). rewrite take_min_len, drop_min_len, Hfold.
  cbn [mbind outcome_bind]. eexists. split; [reflexivity |]. fields. repeat split.
Qed.

Lemma tickerLoopTick_fold_failure_witness :
  exists d',
    tickerLoopTick
      (set_batch (set_aggregate (Example.running 10 3 Example.failing Example.accepting)
                    (Example.msgs 2))
         [Example.msg 5]) = Returns d'
    /\ map mon.level (logger d') = ["error"]
    /\ aggregate d' = []
    /\ batch d' = [Example.msg 5]
    /\ queue (outCh d') = [].
Proof.
  destruct (tickerLoopTick_fold_failure
              (set_batch (set_aggregate (Example.running 10 3 Example.failing Example.accepting)
                            (Example.msgs 2))
                 [Example.msg 5])
              (ErrLeaf "unsupported body"))
    as (d' & HT & Hl & Ha & Hb & Hc & _).
  - discriminate.
  - vm_compute. discriminate.
  - reflexivity.
  - exists d'. rewrite HT, Hl, Ha, Hb, Hc. repeat split.
Defined.

(** ** Shutdown *)



(** ** The worker's loop *)

(** A worker with more idle measurements at hand than batches are queued
    takes every queued batch, oldest first, and hands each to the sink once,
    whatever the sink answers; it writes two metrics per batch and touches
    neither buffer. With the queue empty it ends with [return nil] if the
    channel is closed and stays suspended in [Read] if it is open. *)
Theorem outputLoop_drains (IsRequestCanceled : error -> bool) (ctx : Context) :
  forall (d : ProducerDaemon) (idleDurations : list Z),
  (length (queue (outCh d)) < length idleDurations)%nat ->
  exists d',
    outputLoop IsRequestCanceled d ctx idleDurations =
      (if closed (outCh d) then LoopReturn d' None else LoopSuspended d')
    /\ received (output d') = received (output d) ++ queue (outCh d)
    /\ queue (outCh d') = []
    /\ closed (outCh d') = closed (outCh d)
    /\ length (mon.written (metric d')) =
         (length (mon.written (metric d)) + 2 * length (queue (outCh d)))%nat
    /\ batch d' = batch d
    /\ aggregate d' = aggregate d
    /\ ticker d' = ticker d.
Proof.
  intros d. remember (queue (outCh d)) as q eqn:Hq. revert d Hq.
  induction q as [| ready q IH]; intros d Hq idleDurations Hlen.
  - destruct idleDurations as [| idle later]; [cbn in Hlen; lia |].
    exists d. cbn [outputLoop]. unfold outputLoopPass, OutputChannelRead. rewrite <- Hq.
    rewrite app_nil_r. destruct (closed (outCh d)); repeat split; cbn; lia.
  - destruct idleDurations as [| idle later]; [cbn in Hlen; lia |].
    cbn [outputLoop].
    rewrite (outputLoopPass_batch IsRequestCanceled d ctx idle ready q (eq_sym Hq)).
    match goal with |- context [outputLoop _ ?x _ _] => set (d1 := x) end.
    destruct (IH d1) with (idleDurations := later)
      as (d' & HL & Hr & Hq' & Hc & Hm & Hb & Ha & Ht).
    { reflexivity. }
    { cbn [length] in Hlen. lia. }
    exists d'. unfold d1 in *. fields in HL. fields in Hr. fields in Hc. fields in Hm.
    fields in Hb. fields in Ha. fields in Ht.
    cbn [closed received mon.written mon.WriteOne] in *.
    split; [exact HL |]. split; [rewrite Hr, <- app_assoc; reflexivity |].
    split; [exact Hq' |]. split; [exact Hc |].
    split; [rewrite Hm, !length_app; cbn [length]; lia |].
    repeat split; assumption.
Qed.

Lemma outputLoop_drains_witness :
  exists d',
    outputLoop Example.isCanceled
      (Example.after (Example.running 2 1 Example.joining Example.rejecting)
         (WriteEach (Example.running 2 1 Example.joining Example.rejecting) Example.ctx
            [Example.msgs 2; [Example.msg 2; Example.msg 3]]))
      Example.ctx [0; 0; 0]
    = LoopSuspended d'
    /\ received (output d') = [Example.msgs 2; [Example.msg 2; Example.msg 3]].
Proof.
  destruct (outputLoop_drains Example.isCanceled Example.ctx
              (Example.after (Example.running 2 1 Example.joining Example.rejecting)
                 (WriteEach (Example.running 2 1 Example.joining Example.rejecting)
                    Example.ctx [Example.msgs 2; [Example.msg 2; Example.msg 3]]))
              [0; 0; 0])
    as (d' & HL & Hr & _).
  - vm_compute. lia.
  - exists d'. split; [exact HL | exact Hr].
Defined.

Lemma folded_unique (d : ProducerDaemon) (carrier carrier' : list Message) :
  folded d carrier -> folded d carrier' -> carrier = carrier'.
Proof.
  unfold folded. destruct (aggregate d); [congruence |].
  intros (m1 & H1 & ->) (m2 & H2 & ->). congruence.
Qed.

(** Shutdown delivers what fits one flush. If the pending aggregate buffer
    holds at most [AggregationSize] messages and folds without error, and
    the pending batch buffer with the folded carrier holds at most
    [BatchSize], then [close] succeeds and a worker that runs on afterwards
    hands the sink everything that was queued or pending, in order, and
    returns: nothing is left in the buffers or on the channel. *)
Theorem shutdown_delivers (IsRequestCanceled : error -> bool) (d : ProducerDaemon)
    (ctx : Context) (idleDurations : list Z) (carrier : list Message) :
  0 <= AggregationSize (settings d) ->
  0 <= BatchSize (settings d) ->
  closed (outCh d) = false ->
  folded d carrier ->
  len (aggregate d) <= AggregationSize (settings d) ->
  len (batch d ++ carrier) <= BatchSize (settings d) ->
  (length (queue (outCh d)) + 1 < length idleDurations)%nat ->
  exists d1 d2,
    close d = Returns (d1, None)
    /\ outputLoop IsRequestCanceled d1 ctx idleDurations = LoopReturn d2 None
    /\ concat (received (output d2)) = concat (received (output d)) ++ pending d ++ carrier
    /\ aggregate d2 = []
    /\ batch d2 = []
    /\ queue (outCh d2) = [].
Proof.
  intros HA HB Hopen Hfold Hfa Hfb Hlen. unfold close.
  destruct (flushAll_fields d HA HB) as (d0 & err & -> & Hagg & _ & Hcf & Hspec).
  cbn [mbind outcome_bind].
  destruct err as [e |].
  { destruct Hspec as (cause & Hbad & Hne & _). exfalso.
    unfold folded in Hfold. destruct (aggregate d); [contradiction |].
    destruct Hfold as (am & Hok & _). congruence. }
  destruct Hspec as (carrier' & Hfold' & Hb & Hc).
  rewrite <- (folded_unique d carrier carrier' Hfold Hfold') in *. clear Hfold'.
  set (d1 := set_outCh d0 (OutputChannelClose (outCh d0))).
  assert (Hq1 : queue (outCh d1) =
                queue (outCh d) ++ (if decide (batch d ++ carrier = []) then []
                                    else [batch d ++ carrier])).
  { unfold d1. fields. cbn [queue OutputChannelClose]. rewrite Hc.
    destruct (decide (batch d ++ carrier = [])) as [Hnil | Hne].
    - rewrite app_nil_r. reflexivity.
    - destruct (OutputChannelWrite_queue (outCh d)
                  (take (Z.to_nat (BatchSize (settings d))) (batch d ++ carrier)))
        as (-> & _).
      rewrite Hopen, take_ge by (unfold len in *; lia). reflexivity. }
  destruct (outputLoop_drains IsRequestCanceled ctx d1 idleDurations)
    as (d2 & HL & Hr & Hq2 & _ & _ & Hb2 & Ha2 & _).
  { rewrite Hq1, length_app. destruct (decide _); cbn [length]; lia. }
  exists d1, d2. split; [reflexivity |].
  assert (Hcl : closed (outCh d1) = true) by reflexivity.
  rewrite Hcl in HL. split; [exact HL |].
  assert (Ho : output d1 = output d) by (unfold d1; fields; apply Hcf).
  split.
  { rewrite Hr, Ho, Hq1, !concat_app. unfold pending. rewrite <- !app_assoc.
    destruct (decide (batch d ++ carrier = [])) as [Hnil | Hne].
    - rewrite Hnil. reflexivity.
    - cbn [concat]. rewrite app_nil_r. reflexivity. }
  split.
  { rewrite Ha2. unfold d1. fields. rewrite Hagg. apply drop_ge. unfold len in *. lia. }
  split; [| exact Hq2].
  rewrite Hb2. unfold d1. fields. rewrite Hb. apply drop_ge. unfold len in *. lia.
Qed.

Lemma shutdown_delivers_witness :
  exists d1 d2,
    close (Example.after (Example.running 2 1 Example.joining Example.accepting)
             (Write (Example.running 2 1 Example.joining Example.accepting)
                Example.ctx (Example.msgs 3)))
    = Returns (d1, None)
    /\ outputLoop Example.isCanceled d1 Example.ctx [0; 0; 0] = LoopReturn d2 None
    /\ concat (received (output d2)) = Example.msgs 3.
Proof.
  destruct (shutdown_delivers Example.isCanceled
              (Example.after (Example.running 2 1 Example.joining Example.accepting)
                 (Write (Example.running 2 1 Example.joining Example.accepting)
                    Example.ctx (Example.msgs 3)))
              Example.ctx [0; 0; 0] [])
    as (d1 & d2 & HC & HL & Hr & _).
  - vm_compute. discriminate.
  - vm_compute. discriminate.
  - reflexivity.
  - reflexivity.
  - vm_compute. discriminate.
  - vm_compute. discriminate.
  - vm_compute. lia.
  - exists d1, d2. split; [exact HC |]. split; [exact HL | exact Hr].
Defined.

(** ** Writing before [Run] *)

(** A daemon from [NewProducerDaemonWithInterfaces] has no ticker until [Run]
    creates it. With aggregation off, a [Write] before [Run] that stays below
    the batch size only buffers its messages; one that reaches the batch size
    panics on the nil ticker. After the first statement of [Run] every
    [Write] returns. *)
Theorem Write_before_Run (lg : mon.Logger) (mt : mon.MetricWriter) (out : Output)
    (tf : clock.TickerFactory) (ms : AggregateMarshaller) (nm : string)
    (st : ProducerDaemonSettings) (d : ProducerDaemon) (ctx : Context)
    (msgs : list Message) :
  NewProducerDaemonWithInterfaces lg mt out tf ms nm st = Returns d ->
  AggregationSize st <= 1 ->
  (len msgs < BatchSize st ->
     exists d', Write d ctx msgs = Returns (d', None)
                /\ batch d' = msgs /\ queue (outCh d') = [] /\ ticker d' = None)
  /\ (BatchSize st <= len msgs ->
        Write d ctx msgs = Panics "invalid memory address or nil pointer dereference")
  /\ (exists r, Write (RunStart d) ctx msgs = Returns r).
Proof.
  unfold NewProducerDaemonWithInterfaces, make_slice. intros Hnew HA.
  destruct (Z.ltb_spec (BatchSize st) 0) as [Hneg | HB]; [discriminate |].
  cbn [mbind outcome_bind] in Hnew. inversion Hnew; subst d. clear Hnew.
  split; [| split].
  - intros Hlow. unfold Write, applyAggregation. fields.
    destruct (Z.leb_spec (AggregationSize st) 1); [| lia].
    cbn [mbind outcome_bind]. fields. cbn [app].
    destruct (Z.ltb_spec (len msgs) (BatchSize st)); [| lia].
    eexists. split; [reflexivity |]. repeat split.
  - intros Hhigh. unfold Write, applyAggregation. fields.
    destruct (Z.leb_spec (AggregationSize st) 1); [| lia].
    cbn [mbind outcome_bind]. fields. cbn [app].
    destruct (Z.ltb_spec (len msgs) (BatchSize st)); [lia |].
    reflexivity.
  - match goal with |- context [RunStart ?x] => set (d := x) end.
    destruct (Write_fields (RunStart d) ctx msgs (tf (Interval st)))
      as (d' & err & HW & _); [reflexivity | exact HB |].
    exists (d', err). exact HW.
Qed.

Lemma Write_before_Run_witness :
  Write (Example.created 2 1 Example.joining Example.accepting) Example.ctx (Example.msgs 2)
  = Panics "invalid memory address or nil pointer dereference".
Proof.
  destruct (Write_before_Run [] (mon.NewMetricDaemonWriter []) Example.accepting
              clock.NewRealTicker Example.joining "example" (Example.settingsOf 2 1)
              (Example.created 2 1 Example.joining Example.accepting)
              Example.ctx (Example.msgs 2))
    as (_ & H & _).
  - reflexivity.
  - vm_compute. discriminate.
  - apply H. vm_compute. discriminate.
Defined.

(** ** More on the registry *)

(** What a call of [ProvideProducerDaemon] for an unregistered name does. *)
Lemma ProvideProducerDaemon_unregistered {Config : Type}
    (readProducerSettings : Config -> string -> ProducerSettings.t)
    (NewConfigurableOutput : Config -> mon.Logger -> string -> result Output)
    (MarshalJsonMessage : AggregateMarshaller)
    (config : Config) (logger : mon.Logger) (key : string) (pkg pkg' : Package)
    (r : ptr * option error) :
  producerDaemons pkg !! key = None ->
  ProvideProducerDaemon Config readProducerSettings NewConfigurableOutput MarshalJsonMessage
    config logger key pkg = Returns (pkg', r) ->
  (exists e, r = (None, Some e)
             /\ producerDaemons pkg' = <[key := None]> (producerDaemons pkg)
             /\ heap pkg' = heap pkg)
  \/ (exists d, r = (Some (length (heap pkg)), None)
                /\ producerDaemons pkg' = <[key := Some (length (heap pkg))]> (producerDaemons pkg)
                /\ heap pkg' = heap pkg ++ [d]
                /\ name d = key
                /\ ticker d = None
                /\ aggregate d = []
                /\ batch d = []
                /\ queue (outCh d) = []
                /\ closed (outCh d) = false
                /\ settings d = ProducerSettings.Daemon (readProducerSettings config key)).
Proof.
  unfold ProvideProducerDaemon, NewProducerDaemon. intros -> H.
  destruct (NewConfigurableOutput _ _ _) as [out | e].
  - unfold make_slice in H. destruct (_ <? 0); [discriminate |].
    cbn [mbind outcome_bind producerDaemons] in H. rewrite lookup_insert_eq in H.
    cbn [default] in H. inversion H; subst. right. eexists. repeat split.
  - cbn [mbind outcome_bind] in H. inversion H; subst. left. eexists. repeat split.
Qed.

(** After [ResetProducerDaemons] no name is registered: a call of
    [ProvideProducerDaemon] that returns without error has built a new
    daemon, at an address no earlier daemon has, and left it as the only
    registered one; the daemon has empty buffers and no ticker yet. *)
Theorem ResetProducerDaemons_forgets {Config : Type}
    (readProducerSettings : Config -> string -> ProducerSettings.t)
    (NewConfigurableOutput : Config -> mon.Logger -> string -> result Output)
    (MarshalJsonMessage : AggregateMarshaller)
    (config : Config) (logger : mon.Logger) (key : string) (pkg pkg' : Package) (p : ptr) :
  ProvideProducerDaemon Config readProducerSettings NewConfigurableOutput MarshalJsonMessage
    config logger key (ResetProducerDaemons pkg) = Returns (pkg', (p, None)) ->
  p = Some (length (heap pkg))
  /\ producerDaemons pkg' = {[ key := p ]}
  /\ (forall a d, heap pkg !! a = Some d -> heap pkg' !! a = Some d /\ p <> Some a)
  /\ exists d,
       heap pkg' !! length (heap pkg) = Some d
       /\ name d = key /\ ticker d = None /\ aggregate d = [] /\ batch d = [].
Proof.
  intros H.
  apply ProvideProducerDaemon_unregistered in H; [| apply lookup_empty].
  cbn [ResetProducerDaemons heap producerDaemons] in H.
  destruct H as [(e & He & _) | (d & Hr & Hm & Hh & Hn & Ht & Ha & Hb & _)];
    [discriminate |].
  inversion Hr; subst p. split; [reflexivity |].
  split; [rewrite Hm; reflexivity |].
  split.
  - intros a d0 Hlook. rewrite Hh. split.
    + apply lookup_app_l_Some. exact Hlook.
    + apply lookup_lt_Some in Hlook. intros E. inversion E. lia.
  - exists d. rewrite Hh. split; [| auto].
    rewrite lookup_app_r by lia. rewrite Nat.sub_diag. reflexivity.
Qed.

Lemma ResetProducerDaemons_forgets_witness :
  ProvideProducerDaemon unit Example.readSettings Example.newOutput Example.joining
    tt [] "orders"
    (ResetProducerDaemons
       (Example.registered
          (ProvideProducerDaemon unit Example.readSettings Example.newOutput
             Example.joining tt [] "orders" Example.emptyPackage)))
  = Returns
      (Example.registered
         (ProvideProducerDaemon unit Example.readSettings Example.newOutput Example.joining
            tt [] "orders"
            (ResetProducerDaemons
               (Example.registered
                  (ProvideProducerDaemon unit Example.readSettings Example.newOutput
                     Example.joining tt [] "orders" Example.emptyPackage)))),
       (Some 1%nat, None)).
Proof.
  assert (H : exists p,
            ProvideProducerDaemon unit Example.readSettings Example.newOutput
              Example.joining tt [] "orders"
              (ResetProducerDaemons
                 (Example.registered
                    (ProvideProducerDaemon unit Example.readSettings Example.newOutput
                       Example.joining tt [] "orders" Example.emptyPackage)))
            = Returns
                (Example.registered
                   (ProvideProducerDaemon unit Example.readSettings Example.newOutput
                      Example.joining tt [] "orders"
                      (ResetProducerDaemons
                         (Example.registered
                            (ProvideProducerDaemon unit Example.readSettings
                               Example.newOutput Example.joining tt [] "orders"
                               Example.emptyPackage)))),
                 (p, None))).
  { eexists. vm_compute. reflexivity. }
  destruct H as (p & H).
  destruct (ResetProducerDaemons_forgets _ _ _ _ _ _ _ _ _ H) as (Hp & _).
  rewrite H, Hp. reflexivity.
Defined.

(** A call of [ProvideProducerDaemon] for one name leaves every other name
    registered as it was, moves no daemon that already exists, and allocates
    at most one. *)
Theorem ProvideProducerDaemon_frame {Config : Type}
    (readProducerSettings : Config -> string -> ProducerSettings.t)
    (NewConfigurableOutput : Config -> mon.Logger -> string -> result Output)
    (MarshalJsonMessage : AggregateMarshaller)
    (config : Config) (logger : mon.Logger) (key : string) (pkg pkg' : Package)
    (r : ptr * option error) :
  ProvideProducerDaemon Config readProducerSettings NewConfigurableOutput MarshalJsonMessage
    config logger key pkg = Returns (pkg', r) ->
  (forall other, other <> key ->
     producerDaemons pkg' !! other = producerDaemons pkg !! other)
  /\ (forall a d, heap pkg !! a = Some d -> heap pkg' !! a = Some d)
  /\ (length (heap pkg') <= S (length (heap pkg)))%nat.
Proof.
  intros H. destruct (producerDaemons pkg !! key) as [p0 |] eqn:Hlook.
  - unfold ProvideProducerDaemon in H. rewrite Hlook in H. inversion H; subst.
    repeat split; auto.
  - apply ProvideProducerDaemon_unregistered in H; [| exact Hlook].
    destruct H as [(e & _ & Hm & Hh) | (d & _ & Hm & Hh & _)]; rewrite Hm, Hh.
    + split; [intros other Hne; apply lookup_insert_ne; congruence |].
      split; [auto | lia].
    + split; [intros other Hne; apply lookup_insert_ne; congruence |].
      split; [intros a d0 Hl; apply lookup_app_l_Some; exact Hl |].
      rewrite length_app. cbn [length]. lia.
Qed.

Lemma ProvideProducerDaemon_frame_witness :
  producerDaemons
    (Example.registered
       (ProvideProducerDaemon unit Example.readSettings Example.newOutput Example.joining
          tt [] "invoices"
          (Example.registered
             (ProvideProducerDaemon unit Example.readSettings Example.newOutput
                Example.joining tt [] "orders" Example.emptyPackage))))
    !! "orders"
  = Some (Some 0%nat).
Proof.
  assert (H : exists r,
            ProvideProducerDaemon unit Example.readSettings Example.newOutput
              Example.joining tt [] "invoices"
              (Example.registered
                 (ProvideProducerDaemon unit Example.readSettings Example.newOutput
                    Example.joining tt [] "orders" Example.emptyPackage))
            = Returns
                (Example.registered
                   (ProvideProducerDaemon unit Example.readSettings Example.newOutput
                      Example.joining tt [] "invoices"
                      (Example.registered
                         (ProvideProducerDaemon unit Example.readSettings
                            Example.newOutput Example.joining tt [] "orders"
                            Example.emptyPackage))),
                 r)).
  { eexists. vm_compute. reflexivity. }
  destruct H as (r & H).
  destruct (ProvideProducerDaemon_frame _ _ _ _ _ _ _ _ _ H) as (Hother & _).
  etransitivity; [apply (Hother "orders"); discriminate | vm_compute; reflexivity].
Defined.

(** ** The daemon's metrics *)

(** The default metrics of every daemon pass [IsValid]. The count metrics a
    running daemon writes carry neither priority nor unit and do not pass on
    their own: [IsValid] answers that they have no priority. The idle
    duration metric carries both and passes. *)
Theorem daemon_metrics_validity (d : ProducerDaemon) (count idleDuration : Z) :
  Forall (fun m => mon.IsValid m = None) (getProducerDaemonDefaultMetrics (name d))
  /\ Forall (fun m => mon.Dimensions m = dimensions d)
       (getProducerDaemonDefaultMetrics (name d))
  /\ map mon.MetricName (getProducerDaemonDefaultMetrics (name d))
     = [metricNameMessageCount; metricNameBatchSize; metricNameAggregateSize]
  /\ (exists m,
        mon.written (metric (writeMetricMessageCount d count)) = mon.written (metric d) ++ [m]
        /\ mon.IsValid m = Some (ErrLeaf "metric MessageCount has no priority"))
  /\ (exists m,
        mon.written (metric (writeMetricBatchSize d count)) = mon.written (metric d) ++ [m]
        /\ mon.IsValid m = Some (ErrLeaf "metric BatchSize has no priority"))
  /\ (exists m,
        mon.written (metric (writeMetricAggregateSize d count)) = mon.written (metric d) ++ [m]
        /\ mon.IsValid m = Some (ErrLeaf "metric AggregateSize has no priority"))
  /\ (exists m,
        mon.written (metric (writeMetricIdleDuration d idleDuration))
        = mon.written (metric d) ++ [m]
        /\ mon.IsValid m = None).
Proof.
  split; [repeat constructor |]. split; [repeat constructor |]. split; [reflexivity |].
  repeat split; eexists; (split; [reflexivity |]); reflexivity.
Qed.

(** ** The identity of a metric *)

Lemma String_leb_trans (s1 s2 s3 : string) :
  String.leb s1 s2 = true -> String.leb s2 s3 = true -> String.leb s1 s3 = true.
Proof.
  unfold String.leb. revert s2 s3.
  induction s1 as [| c1 s1 IH]; intros [| c2 s2] [| c3 s3]; cbn; try easy.
  unfold Ascii.compare.
  destruct (N.compare_spec (Ascii.N_of_ascii c1) (Ascii.N_of_ascii c2)) as [E12 | L12 | G12];
    destruct (N.compare_spec (Ascii.N_of_ascii c2) (Ascii.N_of_ascii c3)) as [E23 | L23 | G23];
    destruct (N.compare_spec (Ascii.N_of_ascii c1) (Ascii.N_of_ascii c3)) as [E13 | L13 | G13];
    try easy; try lia.
  apply IH.
Qed.

#[local] Instance String_leb_transitive :
  Transitive (fun a b : string => Is_true (String.leb a b)).
Proof.
  intros a b c Hab Hbc. apply Is_true_true. apply Is_true_true in Hab, Hbc.
  eapply String_leb_trans; eassumption.
Qed.

#[local] Instance String_leb_antisymm :
  AntiSymm (=) (fun a b : string => Is_true (String.leb a b)).
Proof.
  intros a b Hab Hba. apply Is_true_true in Hab, Hba. apply String.leb_antisym; assumption.
Qed.

#[local] Instance String_leb_is_total :
  Total (fun a b : string => Is_true (String.leb a b)).
Proof.
  intros a b. destruct (String.leb_total a b) as [H | H]; [left | right];
    apply Is_true_true; exact H.
Qed.

(** The order in which the dimensions are visited does not show in the
    dimension key, and so not in the metric's id: every order of the same
    dimensions gives the same key, the flattened dimensions in increasing
    order joined by "-". *)
Theorem DimensionKey_any_order (d : mon.MetricDatum) (order : list (string * string)) :
  order ≡ₚ map_to_list (mon.Dimensions d) ->
  mon.DimensionKeyOver order = mon.DimensionKey d
  /\ exists sorted,
       mon.DimensionKey d = String.concat "-" sorted
       /\ Sorted (fun a b => Is_true (String.leb a b)) sorted
       /\ sorted ≡ₚ map mon.flatDimension order.
Proof.
  intros Hperm. unfold mon.DimensionKey, mon.DimensionKeyOver, mon.sortStrings.
  assert (Hsame : merge_sort (fun a b => Is_true (String.leb a b))
                    (map mon.flatDimension order)
                  = merge_sort (fun a b => Is_true (String.leb a b))
                      (map mon.flatDimension (map_to_list (mon.Dimensions d)))).
  { apply (Sorted_unique (fun a b => Is_true (String.leb a b))).
    - apply Sorted_merge_sort; apply _.
    - apply Sorted_merge_sort; apply _.
    - rewrite !merge_sort_Permutation. apply Permutation_map. exact Hperm. }
  split; [rewrite Hsame; reflexivity |].
  eexists. split; [reflexivity |]. split.
  - apply Sorted_merge_sort; apply _.
  - rewrite merge_sort_Permutation. apply Permutation_map. symmetry. exact Hperm.
Qed.

Lemma DimensionKey_any_order_witness :
  mon.DimensionKeyOver [("stream", "orders"); ("app", "shop")]
  = mon.DimensionKey
      (mon.mkMetricDatum mon.PriorityHigh "Rate"
         (<["app" := "shop"]> (<["stream" := "orders"]> ∅)) 0 mon.UnitCount)
  /\ mon.DimensionKeyOver [("stream", "orders"); ("app", "shop")] = "app:shop-stream:orders".
Proof.
  split; [| vm_compute; reflexivity].
  apply DimensionKey_any_order.
  cbn [mon.Dimensions].
  rewrite map_to_list_insert by (vm_compute; reflexivity).
  rewrite map_to_list_insert by reflexivity.
  rewrite map_to_list_empty. apply perm_swap.
Defined.

(** Every datum with the daemon's dimensions has the id
    "<metric name>:ProducerDaemon:<daemon name>"; so each count metric written
    while the daemon runs has the id of the default metric of the same name,
    and the ids of the daemon's metrics differ exactly as their names do. *)
Theorem daemon_metric_Id (d : ProducerDaemon) (priority value : Z) (metricName unit : string) :
  mon.Id (mon.mkMetricDatum priority metricName (dimensions d) value unit)
  = metricName +:+ ":ProducerDaemon:" +:+ name d.
Proof.
  unfold mon.Id, mon.DimensionKey, mon.DimensionKeyOver, dimensions. cbn [mon.Dimensions
    mon.MetricName].
  rewrite map_to_list_singleton. reflexivity.
Qed.

(** ** A series of writes with aggregation *)

(** With an aggregation size above one, a series of [Write] calls that all
    succeed on a running daemon with an open output channel folds the raw
    messages in groups of exactly [AggregationSize], taken in arrival order
    with nothing lost in between: the groups, in order, followed by the
    pending aggregate buffer are what was pending before followed by the
    messages of the calls. Each group gives one carrier message, the
    carriers enter the batch buffer in the order of their groups, and the
    batches pushed hold exactly [BatchSize] carriers each. *)
Theorem WriteEach_folds_groups (ctx : Context) (calls : list (list Message)) :
  forall (d d' : ProducerDaemon) (t : clock.Ticker),
  ticker d = Some t ->
  1 < AggregationSize (settings d) ->
  0 <= BatchSize (settings d) ->
  closed (outCh d) = false ->
  WriteEach d ctx calls = Returns (d', None) ->
  exists groups carriers pushed,
    Forall2 (fun group carrier =>
               len group = AggregationSize (settings d)
               /\ BuildAggregateMessage (marshaller d) group [MessageAttributes (settings d)]
                  = Ok carrier)
      groups carriers
    /\ concat groups ++ aggregate d' = aggregate d ++ concat calls
    /\ queue (outCh d') = queue (outCh d) ++ pushed
    /\ Forall (fun ready => len ready = BatchSize (settings d)) pushed
    /\ concat pushed ++ batch d' = batch d ++ carriers
    /\ (length groups <= length calls)%nat.
Proof.
  induction calls as [| msgs later IH]; intros d d' t Ht HA HB Hopen HW.
  - cbn in HW. inversion HW; subst d'. exists [], [], []. cbn. rewrite !app_nil_r.
    repeat split; constructor.
  - cbn [WriteEach] in HW.
    destruct (Write_fields d ctx msgs t Ht HB) as (d1 & err & HW1 & Hcf & Hspec).
    rewrite HW1 in HW. cbn [mbind outcome_bind] in HW.
    destruct err as [e |]; [discriminate |].
    destruct Hspec as (carrier & Hagg & Hrest).
    destruct Hcf as (_ & Hs1 & Hm1 & _).
    assert (Hfold : exists group,
              Forall2 (fun group carrier =>
                         len group = AggregationSize (settings d)
                         /\ BuildAggregateMessage (marshaller d) group
                              [MessageAttributes (settings d)] = Ok carrier)
                group carrier
              /\ concat group ++ aggregate d1 = aggregate d ++ msgs
              /\ (length group <= 1)%nat).
    { unfold aggregates in Hagg.
      destruct (Z.leb_spec (AggregationSize (settings d)) 1); [lia |].
      destruct (Z.ltb_spec (len (aggregate d ++ msgs)) (AggregationSize (settings d))).
      - destruct Hagg as (-> & ->). exists []. cbn. repeat split; first [lia | constructor].
      - destruct Hagg as (am & Hok & -> & ->).
        exists [take (Z.to_nat (AggregationSize (settings d))) (aggregate d ++ msgs)].
        cbn [concat length]. rewrite app_nil_r, take_drop. repeat split; [| lia].
        constructor; [| constructor]. split; [| exact Hok]. rewrite len_take by lia. lia. }
    destruct Hfold as (group & Hgroup & Hgcat & Hglen).
    assert (Hstep : exists t1 step,
              ticker d1 = Some t1
              /\ closed (outCh d1) = false
              /\ queue (outCh d1) = queue (outCh d) ++ step
              /\ Forall (fun ready => len ready = BatchSize (settings d)) step
              /\ concat step ++ batch d1 = batch d ++ carrier).
    { destruct (Z.ltb_spec (len (batch d ++ carrier)) (BatchSize (settings d)));
        destruct Hrest as (Hb & Hc & Htk).
      - exists t, []. rewrite Hc, Hb, app_nil_r. repeat split; auto.
      - destruct (decide (batch d ++ carrier = [])) as [Hnil | Hne].
        + exists (clock.Reset t), []. rewrite Hc, Hb, Hnil, drop_nil, app_nil_r.
          repeat split; auto.
        + exists (clock.Reset t),
            [take (Z.to_nat (BatchSize (settings d))) (batch d ++ carrier)].
          destruct (OutputChannelWrite_queue (outCh d)
                      (take (Z.to_nat (BatchSize (settings d))) (batch d ++ carrier)))
            as (Hq & Hcl & _).
          rewrite Hc, Hq, Hcl, Hopen, Hb. cbn [concat]. rewrite app_nil_r, take_drop.
          repeat split; auto.
          constructor; [| constructor]. rewrite len_take by lia. lia. }
    destruct Hstep as (t1 & step & Ht1 & Hopen1 & Hq1 & Hsz1 & Hcat1).
    destruct (IH d1 d' t1 Ht1) as (groups & carriers & pushed & HF2 & Hacat & Hq & Hsz & Hcat & Hlen);
      [rewrite Hs1; lia | rewrite Hs1; lia | exact Hopen1 | exact HW |].
    rewrite Hs1, Hm1 in HF2. rewrite Hs1 in Hsz.
    exists (group ++ groups), (carrier ++ carriers), (step ++ pushed).
    split; [apply Forall2_app; assumption |].
    split; [rewrite concat_app, <- app_assoc, Hacat, app_assoc, Hgcat, <- app_assoc;
            reflexivity |].
    split; [rewrite Hq, Hq1, app_assoc; reflexivity |].
    split; [apply Forall_app; split; assumption |].
    split; [rewrite concat_app, <- app_assoc, Hcat, !app_assoc, Hcat1; reflexivity |].
    rewrite length_app. cbn [length]. lia.
Qed.

Lemma WriteEach_folds_groups_witness :
  exists (groups : list (list Message)) (carriers : list Message),
    concat groups
      ++ aggregate
           (Example.after (Example.running 2 3 Example.joining Example.accepting)
              (WriteEach (Example.running 2 3 Example.joining Example.accepting)
                 Example.ctx
                 [Example.msgs 2; [Example.msg 2; Example.msg 3; Example.msg 4];
                  [Example.msg 5; Example.msg 6]]))
    = Example.msgs 7
    /\ Forall2 (fun group carrier => len group = 3) groups carriers.
Proof.
  destruct (WriteEach_folds_groups Example.ctx
              [Example.msgs 2; [Example.msg 2; Example.msg 3; Example.msg 4];
               [Example.msg 5; Example.msg 6]]
              (Example.running 2 3 Example.joining Example.accepting)
              (Example.after (Example.running 2 3 Example.joining Example.accepting)
                 (WriteEach (Example.running 2 3 Example.joining Example.accepting)
                    Example.ctx
                    [Example.msgs 2; [Example.msg 2; Example.msg 3; Example.msg 4];
                     [Example.msg 5; Example.msg 6]]))
              (clock.NewRealTicker time.Second))
    as (groups & carriers & pushed & HF2 & Hacat & _).
  - reflexivity.
  - vm_compute. reflexivity.
  - vm_compute. discriminate.
  - reflexivity.
  - vm_compute. reflexivity.
  - exists groups, carriers. split; [exact Hacat |].
    eapply Forall2_impl; [exact HF2 | intros g c [Hl _]; exact Hl].
Defined.

(** ** Writing after shutdown *)

(** [Write] never looks at the output channel before it flushes. With
    aggregation off, a [Write] on a daemon whose channel is closed still
    returns without error. Below the batch size it only buffers; at the batch
    size it resets the ticker and hands the first [BatchSize] messages to the
    closed channel, which takes no further pushes: they are then neither in
    the buffer nor on the queue. *)
Theorem Write_after_close (d : ProducerDaemon) (ctx : Context) (msgs : list Message)
    (t : clock.Ticker) :
  ticker d = Some t ->
  AggregationSize (settings d) <= 1 ->
  0 <= BatchSize (settings d) ->
  closed (outCh d) = true ->
  exists d',
    Write d ctx msgs = Returns (d', None)
    /\ queue (outCh d') = queue (outCh d)
    /\ closed (outCh d') = true
    /\ (len (batch d ++ msgs) < BatchSize (settings d) -> batch d' = batch d ++ msgs)
    /\ (BatchSize (settings d) <= len (batch d ++ msgs) ->
          batch d' = drop (Z.to_nat (BatchSize (settings d))) (batch d ++ msgs)
          /\ ticker d' = Some (clock.Reset t)).
Proof.
  intros Ht HA HB Hclosed.
  destruct (Write_fields d ctx msgs t Ht HB) as (d' & err & HW & _ & Hspec).
  destruct err as [e |]; [destruct Hspec as (_ & _ & _ & Hon & _); lia |].
  destruct Hspec as (carrier & Hagg & Hrest).
  unfold aggregates in Hagg.
  destruct (Z.leb_spec (AggregationSize (settings d)) 1); [| lia].
  destruct Hagg as (-> & _).
  exists d'. split; [exact HW |].
  destruct (Z.ltb_spec (len (batch d ++ msgs)) (BatchSize (settings d)));
    destruct Hrest as (Hb & Hc & Htk).
  - rewrite Hc. repeat split; [exact Hclosed | intros _; exact Hb | lia | lia].
  - assert (Hch : queue (outCh d') = queue (outCh d) /\ closed (outCh d') = true).
    { rewrite Hc. destruct (decide (batch d ++ msgs = [])); [auto |].
      destruct (OutputChannelWrite_queue (outCh d)
                  (take (Z.to_nat (BatchSize (settings d))) (batch d ++ msgs)))
        as (-> & -> & _).
      rewrite Hclosed, app_nil_r. auto. }
    destruct Hch as (Hq & Hcl).
    split; [exact Hq |]. split; [exact Hcl |]. split; [lia |]. intros _. auto.
Qed.

Lemma Write_after_close_witness :
  exists d',
    Write (Example.after (Example.running 2 1 Example.joining Example.accepting)
             (close (Example.running 2 1 Example.joining Example.accepting)))
      Example.ctx (Example.msgs 3)
    = Returns (d', None)
    /\ queue (outCh d') = []
    /\ batch d' = [Example.msg 2].
Proof.
  destruct (Write_after_close
              (Example.after (Example.running 2 1 Example.joining Example.accepting)
                 (close (Example.running 2 1 Example.joining Example.accepting)))
              Example.ctx (Example.msgs 3) (clock.NewRealTicker time.Second))
    as (d' & HW & Hq & _ & _ & Hdrop).
  - reflexivity.
  - vm_compute. discriminate.
  - vm_compute. discriminate.
  - reflexivity.
  - exists d'. split; [exact HW |]. split; [exact Hq |].
    destruct Hdrop as (Hb & _); [vm_compute; discriminate | exact Hb].
Defined.
